(** * p_tqdm: parallel, threaded and sequential maps behind a progress bar

    A shallow embedding of [p_tqdm/p_tqdm.py].  The module is a thin layer
    over three collaborators that live outside the repository: the pathos
    worker pools ([ProcessPool], [ThreadPool]), [pathos.helpers.cpu_count]
    and the [tqdm] progress bar.  The generators [_parallel] and
    [_sequential] are embedded statement by statement in a small monad that
    records the calls made to those collaborators and propagates Python
    exceptions; a generator object is a three-state machine driven by
    [gen_next] and [gen_close]. *)

From Stdlib Require Import ZArith List Lia.
From Stdlib Require Import Floats.SpecFloat.
From stdpp Require Import gmap strings list fin_maps.

Open Scope string_scope.
Open Scope list_scope.

(** ** Python values and exceptions *)

(** The exceptions that the modelled paths can raise.  [UserError] stands for
    whatever the mapped function raises. *)
Inductive exn :=
| AssertionError
| TypeError
| ValueError
| OverflowError
| TqdmKeyError
| TqdmDeprecationWarning
| UserError (tag : nat).

Inductive result (X : Type) :=
| Ok (x : X)
| Raise (e : exn).
Arguments Ok {X} x.
Arguments Raise {X} e.

(** Values that travel in the keyword bag: [None], booleans, integers,
    binary64 floats, strings and progress-bar classes ([tqdm] itself or one
    of its variants, named by [cls]). *)
Inductive pyval :=
| VNone
| VBool (b : bool)
| VInt (n : Z)
| VFloat (x : spec_float)
| VStr (s : string)
| VTqdm (cls : string).

(** Python truth value, as used by [total or ...]. *)
Definition truthy (v : pyval) : bool :=
  match v with
  | VNone => false
  | VBool b => b
  | VInt n => negb (n =? 0)%Z
  | VFloat (S754_zero _) => false
  | VFloat _ => true
  | VStr s => negb (String.eqb s "")
  | VTqdm _ => true
  end.

(** [a or b] *)
Definition py_or (a b : pyval) : pyval := if truthy a then a else b.

(** [dict.pop(key, default)]: the value and the bag without the key. *)
Definition pop (key : string) (default : pyval) (kwargs : gmap string pyval)
  : pyval * gmap string pyval :=
  (match kwargs !! key with Some v => v | None => default end, delete key kwargs).

Definition min_list (x : Z) (rest : list Z) : Z := foldl Z.min x rest.

(** [min(...)] raises [ValueError] on an empty argument. *)
Definition py_min (l : list Z) : result Z :=
  match l with
  | [] => Raise ValueError
  | x :: rest => Ok (min_list x rest)
  end.

(** [min(lengths) if lengths else None] *)
Definition inferred_length (lengths : list Z) : pyval :=
  match lengths with
  | [] => VNone
  | x :: rest => VInt (min_list x rest)
  end.

(** ** Floats: [int(round(num_cpus * cpu_count()))] *)

Definition prec : Z := 53.
Definition emax : Z := 1024.

(** Conversion of the int operand of [float * int]. *)
Definition float_of_int (n : Z) : result spec_float :=
  match binary_normalize prec emax n 0 false with
  | S754_infinity _ => Raise OverflowError
  | x => Ok x
  end.

(** The integer nearest to [m * 2^e] for [0 <= m], ties to the even one. *)
Definition round_half_even (m e : Z) : Z :=
  if (0 <=? e)%Z then (m * 2 ^ e)%Z
  else
    let d := (2 ^ (- e))%Z in
    let q := (m / d)%Z in
    match (2 * (m mod d) ?= d)%Z with
    | Lt => q
    | Gt => (q + 1)%Z
    | Eq => if Z.even q then q else (q + 1)%Z
    end.

(** [round(x)] of a float, without [ndigits]: an int. *)
Definition py_round (x : spec_float) : result Z :=
  match x with
  | S754_zero _ => Ok 0%Z
  | S754_infinity _ => Raise OverflowError
  | S754_nan => Raise ValueError
  | S754_finite s m e => Ok (cond_Zopp s (round_half_even (Zpos m) e))
  end.

(** ** The host and the trace of collaborator calls *)

(** What the run depends on outside the arguments: the detected CPU count,
    whether the bar's output stream is a terminal, and the order in which
    the pool's workers happen to complete ([completion], read by
    [completion_order]). *)
Record host := {
  cpu_count : Z;
  isatty : bool;
  completion : list nat
}.

Inductive pool_kind := ProcessPool | ThreadPool.
Inductive map_type := Imap | Uimap.

Inductive event :=
| PoolNew (kind : pool_kind) (workers : Z)
| Submit (mt : map_type) (tasks : nat)
| BarOpen (cls : string) (total : pyval) (options : gmap string pyval)
| BarClose
| PoolClear.

(** Computations that log events and may raise. *)
Definition M (X : Type) : Type := list event * result X.

Definition ret {X} (x : X) : M X := ([], Ok x).
Definition raise {X} (e : exn) : M X := ([], Raise e).
Definition emit (ev : event) : M unit := ([ev], Ok tt).
Definition lift {X} (r : result X) : M X := ([], r).
Definition bind {X Y} (m : M X) (k : X -> M Y) : M Y :=
  match m with
  | (tr, Ok x) => let '(tr', r) := k x in (tr ++ tr', r)
  | (tr, Raise e) => (tr, Raise e)
  end.

Notation "'let*' x := m 'in' k" := (bind m (fun x => k))
  (at level 10, x name, m at level 100, k at level 200).
Notation "'let*' ' p := m 'in' k" := (bind m (fun x => match x with p => k end))
  (at level 10, p pattern, m at level 100, k at level 200).
Notation "m ;;; k" := (bind m (fun _ => k))
  (at level 100, k at level 200, right associativity).

(** ** Lines 33-40: the worker count *)

Definition determine_num_cpus (h : host) (num_cpus : pyval) : result pyval :=
  match num_cpus with
  | VNone => Ok (VInt (cpu_count h))
  | VFloat x =>
      match float_of_int (cpu_count h) with
      | Raise e => Raise e
      | Ok c =>
          match py_round (SFmul prec emax x c) with
          | Raise e => Raise e
          | Ok n => Ok (VInt n)
          end
      end
  | v => Ok v
  end.

(** The pool constructors ([ProcessPool(n)], [ThreadPool(n)]) start the
    underlying multiprocess pool, which refuses fewer than one worker and
    anything that is not a number. *)
Definition pool_workers (v : pyval) : result Z :=
  match v with
  | VInt n => if (1 <=? n)%Z then Ok n else Raise ValueError
  | VBool true => Ok 1%Z
  | VBool false => Raise ValueError
  | _ => Raise TypeError
  end.

(** ** The progress bar *)

(** Keyword parameters of [tqdm.__init__] besides [iterable] and [total]. *)
Definition tqdm_params : list string :=
  ["desc"; "leave"; "file"; "ncols"; "mininterval"; "maxinterval";
   "miniters"; "ascii"; "disable"; "unit"; "unit_scale"; "dynamic_ncols";
   "smoothing"; "bar_format"; "initial"; "position"; "postfix";
   "unit_divisor"; "write_bytes"; "lock_args"; "nrows"; "colour"; "delay";
   "gui"].

Definition tqdm_names : gset string := list_to_set tqdm_params.

(** [disable=None] means: disabled unless the stream is a terminal. *)
Definition bar_disabled (h : host) (kw : gmap string pyval) : bool :=
  match kw !! "disable" with
  | None => false
  | Some VNone => negb (isatty h)
  | Some v => truthy v
  end.

(** [tqdm.__init__(self, iterable, total=..., **kw)]: [self] and the
    iterable are already bound positionally, so a keyword of either name
    fails the call; a disabled bar returns before the leftover keywords are
    looked at; otherwise any leftover keyword is refused, with the
    deprecation warning when [nested] is among them. *)
Definition tqdm_init (h : host) (kw : gmap string pyval) : result unit :=
  if bool_decide ("iterable" ∈ dom kw) then Raise TypeError
  else if bool_decide ("self" ∈ dom kw) then Raise TypeError
  else if bar_disabled h kw then Ok tt
  else if bool_decide (dom kw ⊆ tqdm_names) then Ok tt
  else if bool_decide ("nested" ∈ dom kw) then Raise TqdmDeprecationWarning
  else Raise TqdmKeyError.

(** The call [callee(stream, total=total, **kw)].  A [total] inside [kw]
    collides with the explicit keyword before the callee runs. *)
Definition call_progress (h : host) (callee total : pyval)
    (kw : gmap string pyval) : M unit :=
  if bool_decide ("total" ∈ dom kw) then raise TypeError
  else
    match callee with
    | VTqdm cls => lift (tqdm_init h kw) ;;; emit (BarOpen cls total kw)
    | _ => raise TypeError
    end.

(** ** Line 49: the mode assertion *)

Definition mode_ok (mode : string) : bool :=
  negb (String.eqb mode "")
  && (String.eqb mode "parallel" || String.eqb mode "threading").

(** Line 50: [ProcessPool] if [mode == "parallel"], else [ThreadPool]. *)
Definition kind_of (mode : string) : pool_kind :=
  if String.eqb mode "parallel" then ProcessPool else ThreadPool.

Definition py_assert (b : bool) : M unit :=
  if b then ret tt else raise AssertionError.

(** ** Completion order of an unordered pool map *)

(** Each pick selects which of the pending results completes next; when the
    picks run out the remaining results arrive in submission order. *)
Fixpoint completion_order {X} (picks : list nat) (pending : list X) : list X :=
  match picks with
  | [] => pending
  | k :: picks' =>
      match pending !! (k mod length pending) with
      | None => []
      | Some x => x :: completion_order picks' (delete (k mod length pending) pending)
      end
  end.

Section Engine.
Context {A B : Type}.

(** An input: a sized container or a one-pass iterator over [xs]. *)
Inductive iterable :=
| Sized (xs : list A)
| Unsized (xs : list A).

Definition items (it : iterable) : list A :=
  match it with Sized xs | Unsized xs => xs end.

(** [[len(it) for it in iterables if isinstance(it, Sized)]] *)
Fixpoint sized_lengths (iterables : list iterable) : list Z :=
  match iterables with
  | [] => []
  | Sized xs :: rest => Z.of_nat (length xs) :: sized_lengths rest
  | Unsized _ :: rest => sized_lengths rest
  end.

(** [zip] of the inputs: one row of arguments per position, up to the
    shortest input. *)
Fixpoint zip_rows (inputs : list (list A)) : list (list A) :=
  match inputs with
  | [] => []
  | [xs] => map (fun x => [x]) xs
  | xs :: rest => zip_with cons xs (zip_rows rest)
  end.

(** The mapped function receives one row and returns or raises. *)
Definition callable : Type := list A -> result B.

(** [pool.imap(f, *iterables)] and [pool.uimap(f, *iterables)]. *)
Definition pool_stream (h : host) (mt : map_type) (function : callable)
    (rows : list (list A)) : list (result B) :=
  match mt with
  | Imap => map function rows
  | Uimap => completion_order (completion h) (map function rows)
  end.

(** Lines 33-56 of [_parallel], up to the first item. *)
Definition parallel_body (h : host) (ordered : bool) (function : callable)
    (mode : string) (iterables : list iterable)
    (kwargs : gmap string pyval) : M (list (result B)) :=
  let '(num_cpus, kwargs) := pop "num_cpus" VNone kwargs in
  let* num_cpus := lift (determine_num_cpus h num_cpus) in
  let '(total, kwargs) := pop "total" VNone kwargs in
  let lengths := sized_lengths iterables in
  let length := py_or total (inferred_length lengths) in
  let map_type := if ordered then Imap else Uimap in
  py_assert (mode_ok mode) ;;;
  let* workers := lift (pool_workers num_cpus) in
  emit (PoolNew (kind_of mode) workers) ;;;
  let '(tqdm_func, kwargs) := pop "tqdm" (VTqdm "tqdm") kwargs in
  let rows := zip_rows (map items iterables) in
  emit (Submit map_type (List.length rows)) ;;;
  call_progress h tqdm_func length kwargs ;;;
  ret (pool_stream h map_type function rows).

(** Lines 145-149 of [_sequential], up to the first item. *)
Definition sequential_body (h : host) (function : callable)
    (iterables : list iterable) (kwargs : gmap string pyval)
  : M (list (result B)) :=
  let* length := lift (py_min (sized_lengths iterables)) in
  let rows := zip_rows (map items iterables) in
  call_progress h (VTqdm "tqdm") (VInt length) kwargs ;;;
  ret (map function rows).

(** *** Generator objects *)

Inductive call :=
| CallParallel (ordered : bool) (function : callable) (mode : string)
    (iterables : list iterable) (kwargs : gmap string pyval)
| CallSequential (function : callable) (iterables : list iterable)
    (kwargs : gmap string pyval).

(** [Created]: the body has not run yet.  [Suspended]: stopped at the
    [yield], with the results still to come; [pooled] tells whether a
    [pool.clear()] follows the loop. *)
Inductive generator :=
| Created (c : call)
| Suspended (pooled : bool) (rest : list (result B))
| Finished.

Inductive signal :=
| Yielded (v : B)
| StopIteration
| Raised (e : exn).

Definition start (h : host) (c : call) : M (bool * list (result B)) :=
  match c with
  | CallParallel ordered function mode iterables kwargs =>
      let* s := parallel_body h ordered function mode iterables kwargs in
      ret (true, s)
  | CallSequential function iterables kwargs =>
      let* s := sequential_body h function iterables kwargs in
      ret (false, s)
  end.

(** One turn of [for item in tqdm_func(...): yield item], and what follows
    the loop. *)
Definition resume (pooled : bool) (rest : list (result B))
  : list event * signal * generator :=
  match rest with
  | [] => (BarClose :: (if pooled then [PoolClear] else []),
           StopIteration, Finished)
  | Ok v :: rest' => ([], Yielded v, Suspended pooled rest')
  | Raise e :: _ => ([BarClose], Raised e, Finished)
  end.

(** [next(g)] *)
Definition gen_next (h : host) (g : generator)
  : list event * signal * generator :=
  match g with
  | Created c =>
      match start h c with
      | (tr, Ok (pooled, stream)) =>
          let '(tr', s, g') := resume pooled stream in (tr ++ tr', s, g')
      | (tr, Raise e) => (tr, Raised e, Finished)
      end
  | Suspended pooled rest => resume pooled rest
  | Finished => ([], StopIteration, Finished)
  end.

(** [g.close()], also what happens when a suspended generator is dropped:
    [GeneratorExit] is raised at the [yield]; the bar's iterator closes
    the bar on its way out and the statements after the loop are skipped. *)
Definition gen_close (g : generator) : list event * generator :=
  match g with
  | Suspended _ _ => ([BarClose], Finished)
  | _ => ([], Finished)
  end.

(** [list(g)] as the consumer protocol: [next] until it stops or raises. *)
Fixpoint consume (fuel : nat) (h : host) (g : generator)
  : option (list event * result (list B)) :=
  match fuel with
  | O => None
  | S fuel' =>
      let '(tr, s, g') := gen_next h g in
      match s with
      | StopIteration => Some (tr, Ok [])
      | Raised e => Some (tr, Raise e)
      | Yielded v =>
          match consume fuel' h g' with
          | Some (tr', Ok vs) => Some (tr ++ tr', Ok (v :: vs))
          | Some (tr', Raise e) => Some (tr ++ tr', Raise e)
          | None => None
          end
      end
  end.

(** The same, by recursion on the results still to come. *)
Fixpoint drain (pooled : bool) (rest : list (result B)) : M (list B) :=
  match rest with
  | [] => (BarClose :: (if pooled then [PoolClear] else []), Ok [])
  | Ok v :: rest' => let* vs := drain pooled rest' in ret (v :: vs)
  | Raise e :: _ => ([BarClose], Raise e)
  end.

Definition py_list (h : host) (g : generator) : M (list B) :=
  match g with
  | Created c => let* '(pooled, stream) := start h c in drain pooled stream
  | Suspended pooled rest => drain pooled rest
  | Finished => ret []
  end.

(** A number of [next] calls after which a generator is surely exhausted. *)
Definition pending (h : host) (g : generator) : nat :=
  match g with
  | Created c =>
      match start h c with
      | (_, Ok (_, stream)) => length stream
      | _ => 0
      end
  | Suspended _ rest => length rest
  | Finished => 0
  end.

(** A consumer that takes at most [k] items and then drops the generator. *)
Fixpoint pull (k : nat) (h : host) (g : generator)
  : list event * list B * generator :=
  match k with
  | O => ([], [], g)
  | S k' =>
      let '(tr, s, g') := gen_next h g in
      match s with
      | Yielded v =>
          let '(tr', vs, g'') := pull k' h g' in (tr ++ tr', v :: vs, g'')
      | _ => (tr, [], g')
      end
  end.

Definition abandon_after (k : nat) (h : host) (g : generator)
  : list event * list B :=
  let '(tr, vs, g') := pull k h g in
  let '(tr', _) := gen_close g' in
  (tr ++ tr', vs).

(** *** The facades *)

Definition _parallel (ordered : bool) (function : callable) (mode : string)
    (iterables : list iterable) (kwargs : gmap string pyval) : generator :=
  Created (CallParallel ordered function mode iterables kwargs).

Definition _sequential (function : callable) (iterables : list iterable)
    (kwargs : gmap string pyval) : generator :=
  Created (CallSequential function iterables kwargs).

Definition p_imap function iterables kwargs : generator :=
  _parallel true function "parallel" iterables kwargs.

Definition p_map (h : host) function iterables kwargs : M (list B) :=
  py_list h (p_imap function iterables kwargs).

Definition p_uimap function iterables kwargs : generator :=
  _parallel false function "parallel" iterables kwargs.

Definition p_umap (h : host) function iterables kwargs : M (list B) :=
  py_list h (p_uimap function iterables kwargs).

Definition s_imap function iterables kwargs : generator :=
  _sequential function iterables kwargs.

Definition s_map (h : host) function iterables kwargs : M (list B) :=
  py_list h (s_imap function iterables kwargs).

Definition t_imap function iterables kwargs : generator :=
  _parallel true function "threading" iterables kwargs.

Definition t_map (h : host) function iterables kwargs : M (list B) :=
  py_list h (p_imap function iterables kwargs).

Definition t_uimap function iterables kwargs : generator :=
  _parallel false function "threading" iterables kwargs.

Definition t_umap (h : host) function iterables kwargs : M (list B) :=
  py_list h (p_uimap function iterables kwargs).

End Engine.

Arguments iterable A : clear implicits.
Arguments callable A B : clear implicits.
Arguments generator A B : clear implicits.
Arguments call A B : clear implicits.
Arguments signal B : clear implicits.

(** ** Vocabulary of the statements *)

(** A mapped function that never raises: it returns [g row]. *)
Definition returns {A B} (g : list A -> B) : callable A B :=
  fun row => Ok (g row).

(** The value of a keyword option, [None] when it is absent. *)
Definition option_of (key : string) (kwargs : gmap string pyval) : pyval :=
  (pop key VNone kwargs).1.

(** What is left of the keyword bag for the bar once [_parallel] has popped
    its own three options. *)
Definition display_options (kwargs : gmap string pyval) : gmap string pyval :=
  delete "tqdm" (delete "total" (delete "num_cpus" kwargs)).

(** The worker count handed to the pool constructor, when there is one. *)
Definition resolved_workers (h : host) (kwargs : gmap string pyval) : result Z :=
  match determine_num_cpus h (option_of "num_cpus" kwargs) with
  | Raise e => Raise e
  | Ok v => pool_workers v
  end.

(** The options let [_parallel] reach its loop: at least one worker, a
    progress-bar class under [tqdm] if anything, display options that the
    bar takes. *)
Definition engine_accepts (h : host) (kwargs : gmap string pyval) : bool :=
  match resolved_workers h kwargs, kwargs !! "tqdm" with
  | Ok _, (None | Some (VTqdm _)) =>
      match tqdm_init h (display_options kwargs) with
      | Ok _ => true
      | Raise _ => false
      end
  | _, _ => false
  end.

(** The options let [_sequential] reach its loop. *)
Definition sequential_accepts (h : host) (kwargs : gmap string pyval) : bool :=
  negb (bool_decide ("total" ∈ dom kwargs))
  && match tqdm_init h kwargs with Ok _ => true | Raise _ => false end.

Definition is_pool_new (ev : event) : bool :=
  match ev with PoolNew _ _ => true | _ => false end.

Definition is_pool_clear (ev : event) : bool :=
  match ev with PoolClear => true | _ => false end.

(** A pool was created and never cleared. *)
Definition pool_leaked (tr : list event) : bool :=
  existsb is_pool_new tr && negb (existsb is_pool_clear tr).

(** The bounds given to the progress bars opened during a run. *)
Fixpoint bar_totals (tr : list event) : list pyval :=
  match tr with
  | [] => []
  | BarOpen _ total _ :: tr' => total :: bar_totals tr'
  | _ :: tr' => bar_totals tr'
  end.

(** The pools created during a run. *)
Fixpoint pools_created (tr : list event) : list pool_kind :=
  match tr with
  | [] => []
  | PoolNew kind _ :: tr' => kind :: pools_created tr'
  | _ :: tr' => pools_created tr'
  end.

(** The ten public names; an iterator variant is run by draining it. *)
Inductive variant :=
| P_imap | P_map | P_uimap | P_umap
| S_imap | S_map
| T_imap | T_map | T_uimap | T_umap.

Definition run_variant {A B} (v : variant) (h : host) (function : callable A B)
    (iterables : list (iterable A)) (kwargs : gmap string pyval) : M (list B) :=
  match v with
  | P_imap => py_list h (p_imap function iterables kwargs)
  | P_map => p_map h function iterables kwargs
  | P_uimap => py_list h (p_uimap function iterables kwargs)
  | P_umap => p_umap h function iterables kwargs
  | S_imap => py_list h (s_imap function iterables kwargs)
  | S_map => s_map h function iterables kwargs
  | T_imap => py_list h (t_imap function iterables kwargs)
  | T_map => t_map h function iterables kwargs
  | T_uimap => py_list h (t_uimap function iterables kwargs)
  | T_umap => t_umap h function iterables kwargs
  end.

Definition variant_accepts (v : variant) (h : host)
    (kwargs : gmap string pyval) : bool :=
  match v with
  | S_imap | S_map => sequential_accepts h kwargs
  | _ => engine_accepts h kwargs
  end.

(** The variants built on [pool.uimap]. *)
Definition unordered (v : variant) : bool :=
  match v with
  | P_uimap | P_umap | T_uimap | T_umap => true
  | _ => false
  end.

(** The order in which a variant delivers the results [l] of the rows. *)
Definition arrival_order {X} (v : variant) (h : host) (l : list X) : list X :=
  if unordered v then completion_order (completion h) l else l.

(** [n] is an integer nearest to [m * 2^e]. *)
Definition is_nearest (m e n : Z) : Prop :=
  (2 * Z.abs (n * 2 ^ Z.max 0 (- e) - m * 2 ^ Z.max 0 e) <= 2 ^ Z.max 0 (- e))%Z.

(** The float is finite and positive: a fraction in the spec's sense. *)
Definition positive_float (x : spec_float) : bool :=
  match x with
  | S754_finite false _ _ => true
  | _ => false
  end.

(** The progress bars opened during a run: the class that was called and
    the keyword options it was given besides [total]. *)
Fixpoint bars_opened (tr : list event) : list (string * gmap string pyval) :=
  match tr with
  | [] => []
  | BarOpen cls _ options :: tr' => (cls, options) :: bars_opened tr'
  | _ :: tr' => bars_opened tr'
  end.

(** The sizes of the batches handed to a pool during a run. *)
Fixpoint tasks_submitted (tr : list event) : list nat :=
  match tr with
  | [] => []
  | Submit _ tasks :: tr' => tasks :: tasks_submitted tr'
  | _ :: tr' => tasks_submitted tr'
  end.

(** The event is a call to a pool: its constructor or [clear]. *)
Definition is_pool_event (ev : event) : bool :=
  is_pool_new ev || is_pool_clear ev.

(** [isinstance(it, Sized)] *)
Definition is_sized {A} (it : iterable A) : bool :=
  match it with
  | Sized _ => true
  | Unsized _ => false
  end.

(** The float is an infinity or a NaN. *)
Definition nonfinite (x : spec_float) : bool :=
  match x with
  | S754_infinity _ | S754_nan => true
  | _ => false
  end.

(** ** Sample inputs *)

(** Eight CPUs, a terminal, and workers that finish the third task first. *)
Definition host8 : host :=
  {| cpu_count := 8; isatty := true; completion := [2; 0; 5] |}.

(** Four CPUs. *)
Definition host4 : host :=
  {| cpu_count := 4; isatty := true; completion := [] |}.

(** A mapped function: the sum of its arguments. *)
Definition row_sum : list Z -> Z := foldr Z.add 0%Z.

(** The same, but it raises on the row [[3]]. *)
Definition fails_on_three : callable Z Z :=
  fun row =>
    match row with
    | [3%Z] => Raise (UserError 0)
    | _ => Ok (row_sum row)
    end.

(** The items 0, 1, ..., 99. *)
Definition hundred : list Z := map Z.of_nat (seq 0 100).

(** The floats 0.5 and 0.0625. *)
Definition half : spec_float := S754_finite false 4503599627370496 (-53).
Definition sixteenth : spec_float := S754_finite false 4503599627370496 (-56).

(** Keyword bags. *)
Definition no_options : gmap string pyval := ∅.
Definition two_workers_described : gmap string pyval :=
  <["num_cpus" := VInt 2]> (<["desc" := VStr "sum"]> ∅).
Definition total_zero : gmap string pyval := <["total" := VInt 0]> ∅.
Definition total_seven : gmap string pyval := <["total" := VInt 7]> ∅.
Definition half_the_cpus : gmap string pyval := <["num_cpus" := VFloat half]> ∅.
Definition sixteenth_of_the_cpus : gmap string pyval :=
  <["num_cpus" := VFloat sixteenth]> ∅.
Definition two_workers : gmap string pyval := <["num_cpus" := VInt 2]> ∅.
Definition two_workers_disabled : gmap string pyval :=
  <["num_cpus" := VInt 2]> (<["disable" := VBool true]> ∅).
Definition no_workers : gmap string pyval := <["num_cpus" := VInt 0]> ∅.
Definition own_bar : gmap string pyval :=
  <["tqdm" := VTqdm "tqdm_notebook"]> two_workers_described.
Definition nan_workers : gmap string pyval := <["num_cpus" := VFloat S754_nan]> ∅.

(** The float 0.3125: on eight CPUs the product is 2.5. *)
Definition five_sixteenths : spec_float :=
  S754_finite false 5629499534213120 (-54).

(** * Facts *)

(** ** The monad *)

Lemma bind_ret_l {X Y} (x : X) (k : X -> M Y) : bind (ret x) k = k x.
Proof. unfold bind, ret. destruct (k x) as [tr r]. reflexivity. Qed.

Lemma bind_lift_ok {X Y} (x : X) (k : X -> M Y) : bind (lift (Ok x)) k = k x.
Proof. apply bind_ret_l. Qed.

Lemma bind_then_ret {X Y} (m : M X) (u : X -> Y) :
  bind m (fun x => ret (u x))
  = (m.1, match m.2 with Ok x => Ok (u x) | Raise e => Raise e end).
Proof.
  destruct m as [tr [x | e]]; simpl; [| reflexivity].
  rewrite app_nil_r. reflexivity.
Qed.

(** ** Keyword bag *)

Lemma option_of_lookup key kwargs :
  option_of key kwargs = default VNone (kwargs !! key).
Proof. unfold option_of, pop. simpl. destruct (kwargs !! key); reflexivity. Qed.

Lemma total_not_in_display kwargs : "total" ∉ dom (display_options kwargs).
Proof.
  apply not_elem_of_dom. unfold display_options.
  rewrite lookup_delete_ne by done. apply lookup_delete_eq.
Qed.

Section Facts.
Context {A B : Type}.
Implicit Types (h : host) (f : callable A B) (g : list A -> B).
Implicit Types (kwargs : gmap string pyval) (its : list (iterable A)).

Lemma parallel_body_accepted h ordered f mode its kwargs :
  engine_accepts h kwargs = true ->
  mode_ok mode = true ->
  exists n cls,
    resolved_workers h kwargs = Ok n /\
    default (VTqdm "tqdm") (kwargs !! "tqdm") = VTqdm cls /\
    parallel_body h ordered f mode its kwargs =
      ([PoolNew (kind_of mode) n;
        Submit (if ordered then Imap else Uimap)
          (length (zip_rows (map items its)));
        BarOpen cls
          (py_or (option_of "total" kwargs)
             (inferred_length (sized_lengths its)))
          (display_options kwargs)],
       Ok (pool_stream h (if ordered then Imap else Uimap) f
             (zip_rows (map items its)))).
Proof.
  unfold engine_accepts, resolved_workers. intros Hacc Hmode.
  destruct (determine_num_cpus h (option_of "num_cpus" kwargs)) as [v|] eqn:Hnc;
    [| discriminate].
  destruct (pool_workers v) as [n|] eqn:Hw; [| discriminate].
  destruct (tqdm_init h (display_options kwargs)) as [[]|] eqn:Hinit;
    [| destruct (kwargs !! "tqdm") as [[]|]; discriminate].
  assert (exists cls, default (VTqdm "tqdm") (kwargs !! "tqdm") = VTqdm cls)
    as [cls Hcls].
  { destruct (kwargs !! "tqdm") as [[]|]; try discriminate; simpl; eauto. }
  exists n, cls. split; [reflexivity |]. split; [exact Hcls |].
  unfold parallel_body, pop.
  change (match kwargs !! "num_cpus" with Some v0 => v0 | None => VNone end)
    with (option_of "num_cpus" kwargs).
  rewrite Hnc, bind_lift_ok, Hmode. unfold py_assert. rewrite bind_ret_l.
  rewrite Hw, bind_lift_ok.
  rewrite !lookup_delete_ne by done.
  fold (display_options kwargs).
  change (match kwargs !! "total" with Some v0 => v0 | None => VNone end)
    with (option_of "total" kwargs).
  change (match kwargs !! "tqdm" with Some v0 => v0 | None => VTqdm "tqdm" end)
    with (default (VTqdm "tqdm") (kwargs !! "tqdm")).
  rewrite Hcls. unfold call_progress.
  rewrite bool_decide_eq_false_2 by apply total_not_in_display.
  rewrite Hinit. reflexivity.
Qed.

(** *** Draining *)

Lemma drain_returns pooled (vs : list B) :
  drain pooled (map Ok vs)
  = (BarClose :: (if pooled then [PoolClear] else []), Ok vs).
Proof.
  induction vs as [| v vs IH]; simpl; [reflexivity |].
  rewrite bind_then_ret, IH. reflexivity.
Qed.

Lemma map_returns g (rows : list (list A)) :
  map (returns g) rows = map Ok (map g rows).
Proof. rewrite map_map. reflexivity. Qed.

Lemma consume_suspended h pooled (rest : list (result B)) fuel :
  length rest < fuel ->
  consume (A:=A) fuel h (Suspended pooled rest) = Some (drain pooled rest).
Proof.
  revert fuel. induction rest as [| [v | e] rest IH]; intros fuel Hfuel;
    (destruct fuel as [| fuel]; [simpl in Hfuel; lia |]); simpl.
  - reflexivity.
  - rewrite IH by (simpl in Hfuel; lia). rewrite bind_then_ret.
    destruct (drain pooled rest) as [tr [vs | e]]; reflexivity.
  - reflexivity.
Qed.

Lemma consume_py_list h (gen : generator A B) fuel :
  pending h gen < fuel -> consume fuel h gen = Some (py_list h gen).
Proof.
  destruct gen as [c | pooled rest |]; simpl.
  - intros Hfuel. destruct fuel as [| fuel]; [lia |]. simpl.
    destruct (start h c) as [tr [[pooled stream] | e]]; simpl; [| reflexivity].
    destruct stream as [| [v | e] rest]; simpl.
    + reflexivity.
    + rewrite consume_suspended by (simpl in Hfuel; lia).
      rewrite bind_then_ret, app_nil_r.
      destruct (drain pooled rest) as [tr' [vs | e]]; reflexivity.
    + reflexivity.
  - apply consume_suspended.
  - intros Hfuel. destruct fuel; [lia | reflexivity].
Qed.

(** *** Completion order *)

Lemma completion_order_perm {X} (picks : list nat) (l : list X) :
  completion_order picks l ≡ₚ l.
Proof.
  revert l. induction picks as [| k picks IH]; intros l; simpl; [done |].
  destruct l as [| x l]; [done |].
  destruct ((x :: l) !! (k mod length (x :: l))) as [y |] eqn:Hy.
  - rewrite IH. symmetry. by apply delete_Permutation.
  - apply lookup_ge_None in Hy.
    pose proof (Nat.mod_upper_bound k (length (x :: l)) ltac:(simpl; lia)).
    lia.
Qed.

Lemma completion_order_fmap {X Y} (u : X -> Y) (picks : list nat) (l : list X) :
  completion_order picks (map u l) = map u (completion_order picks l).
Proof.
  revert l. induction picks as [| k picks IH]; intros l; simpl; [done |].
  rewrite length_map, list_lookup_fmap.
  destruct (l !! (k mod length l)) as [y |]; simpl; [| done].
  f_equal. rewrite <- IH. f_equal. symmetry. apply list_fmap_delete.
Qed.

(** *** Zipping *)




(** *** Running a parallel generator to the end *)

Lemma py_list_parallel h ordered f mode its kwargs :
  py_list h (_parallel ordered f mode its kwargs)
  = (let* stream := parallel_body h ordered f mode its kwargs in
     drain true stream).
Proof.
  unfold _parallel, py_list, start.
  destruct (parallel_body h ordered f mode its kwargs) as [tr [stream | e]];
    simpl; [| reflexivity].
  destruct (drain true stream) as [tr' r]. rewrite app_nil_r. reflexivity.
Qed.

Lemma py_list_sequential h f its kwargs :
  py_list h (_sequential f its kwargs)
  = (let* stream := sequential_body h f its kwargs in drain false stream).
Proof.
  unfold _sequential, py_list, start.
  destruct (sequential_body h f its kwargs) as [tr [stream | e]];
    simpl; [| reflexivity].
  destruct (drain false stream) as [tr' r]. rewrite app_nil_r. reflexivity.
Qed.

(** With accepted options and a function that returns, a parallel map
    runs to completion: the setup events, the results in the order of the
    pool's stream, and the pool cleared at the end. *)
Lemma parallel_run_returns h ordered g mode its kwargs :
  engine_accepts h kwargs = true ->
  mode_ok mode = true ->
  exists n cls,
    resolved_workers h kwargs = Ok n /\
    default (VTqdm "tqdm") (kwargs !! "tqdm") = VTqdm cls /\
    py_list h (_parallel ordered (returns g) mode its kwargs) =
      ([PoolNew (kind_of mode) n;
        Submit (if ordered then Imap else Uimap)
          (length (zip_rows (map items its)));
        BarOpen cls
          (py_or (option_of "total" kwargs)
             (inferred_length (sized_lengths its)))
          (display_options kwargs);
        BarClose; PoolClear],
       Ok (if ordered then map g (zip_rows (map items its))
           else completion_order (completion h)
                  (map g (zip_rows (map items its))))).
Proof.
  intros Hacc Hmode.
  destruct (parallel_body_accepted h ordered (returns g) mode its kwargs
              Hacc Hmode) as (n & cls & Hn & Hcls & Hbody).
  exists n, cls. split; [exact Hn |]. split; [exact Hcls |].
  rewrite py_list_parallel, Hbody. unfold pool_stream.
  destruct ordered; rewrite map_returns, ?completion_order_fmap;
    unfold bind; rewrite drain_returns; reflexivity.
Qed.

Lemma pending_parallel_accepted h ordered f mode its kwargs :
  engine_accepts h kwargs = true ->
  mode_ok mode = true ->
  pending h (_parallel ordered f mode its kwargs)
  = length (zip_rows (map items its)).
Proof.
  intros Hacc Hmode.
  destruct (parallel_body_accepted h ordered f mode its kwargs Hacc Hmode)
    as (n & cls & _ & _ & Hbody).
  unfold pending, _parallel, start. rewrite bind_then_ret, Hbody. simpl.
  destruct ordered; simpl; rewrite ?length_map; [reflexivity |].
  rewrite completion_order_perm. apply length_map.
Qed.

(** ** C1 *)

(** C1: with at least one input, options that the engine accepts and a
    function [g] that returns, the ordered parallel map yields exactly
    [g] applied to the zipped rows, in row order: as the list of [p_map]
    and as what [next] delivers from [p_imap] until it stops. *)
Theorem p_map_is_sequential_application h g its kwargs :
  its <> [] ->
  engine_accepts h kwargs = true ->
  (p_map h (returns g) its kwargs).2 = Ok (map g (zip_rows (map items its)))
  /\ forall fuel,
       length (zip_rows (map items its)) < fuel ->
       exists tr,
         consume fuel h (p_imap (returns g) its kwargs)
         = Some (tr, Ok (map g (zip_rows (map items its)))).
Proof.
  intros _ Hacc.
  destruct (parallel_run_returns h true g "parallel" its kwargs Hacc eq_refl)
    as (n & cls & _ & _ & Hrun).
  split.
  - unfold p_map, p_imap. rewrite Hrun. reflexivity.
  - intros fuel Hfuel. unfold p_imap.
    rewrite consume_py_list
      by (rewrite pending_parallel_accepted by done; exact Hfuel).
    rewrite Hrun. eauto.
Qed.

(** ** C2 *)

(** C2: on the same inputs and options, the unordered parallel map yields
    a permutation of what the ordered one yields: the same results with
    the same multiplicities, in the order the workers complete. *)
Theorem p_umap_permutes_p_map h g its kwargs :
  its <> [] ->
  engine_accepts h kwargs = true ->
  exists unordered ordered,
    (p_umap h (returns g) its kwargs).2 = Ok unordered
    /\ (p_map h (returns g) its kwargs).2 = Ok ordered
    /\ unordered ≡ₚ ordered
    /\ forall fuel,
         length (zip_rows (map items its)) < fuel ->
         exists tr,
           consume fuel h (p_uimap (returns g) its kwargs)
           = Some (tr, Ok unordered).
Proof.
  intros _ Hacc.
  destruct (parallel_run_returns h false g "parallel" its kwargs Hacc eq_refl)
    as (n & cls & _ & _ & Hu).
  destruct (parallel_run_returns h true g "parallel" its kwargs Hacc eq_refl)
    as (n' & cls' & _ & _ & Ho).
  eexists _, _. unfold p_umap, p_uimap, p_map, p_imap.
  rewrite Hu, Ho. repeat split.
  - apply completion_order_perm.
  - intros fuel Hfuel.
    rewrite consume_py_list
      by (rewrite pending_parallel_accepted by done; exact Hfuel).
    rewrite Hu. eauto.
Qed.

(** *** Running a sequential generator to the end *)

Lemma sequential_body_accepted h f its kwargs x rest :
  sequential_accepts h kwargs = true ->
  sized_lengths its = x :: rest ->
  sequential_body h f its kwargs
  = ([BarOpen "tqdm" (VInt (min_list x rest)) kwargs],
     Ok (map f (zip_rows (map items its)))).
Proof.
  unfold sequential_accepts, sequential_body, call_progress.
  intros Hacc Hlen. rewrite Hlen. simpl py_min. rewrite bind_lift_ok.
  apply andb_prop in Hacc as [Htotal Hinit].
  apply negb_true_iff in Htotal. rewrite Htotal.
  destruct (tqdm_init h kwargs) as [[] |]; [reflexivity | discriminate].
Qed.

Lemma sequential_run_returns h g its kwargs x rest :
  sequential_accepts h kwargs = true ->
  sized_lengths its = x :: rest ->
  py_list h (_sequential (returns g) its kwargs)
  = ([BarOpen "tqdm" (VInt (min_list x rest)) kwargs; BarClose],
     Ok (map g (zip_rows (map items its)))).
Proof.
  intros Hacc Hlen.
  rewrite py_list_sequential,
    (sequential_body_accepted h (returns g) its kwargs x rest Hacc Hlen).
  rewrite map_returns. unfold bind. rewrite drain_returns. reflexivity.
Qed.

(** ** C3 *)

(** What a variant yields with accepted options and a function that
    returns: [g] over the zipped rows, in the variant's arrival order. *)
Lemma run_variant_returns v h g its kwargs x rest :
  variant_accepts v h kwargs = true ->
  sized_lengths its = x :: rest ->
  (run_variant v h (returns g) its kwargs).2
  = Ok (arrival_order v h (map g (zip_rows (map items its)))).
Proof.
  intros Hacc Hlen.
  assert (Hpar : forall ordered mode,
             engine_accepts h kwargs = true -> mode_ok mode = true ->
             (py_list h (_parallel ordered (returns g) mode its kwargs)).2
             = Ok (if ordered then map g (zip_rows (map items its))
                   else completion_order (completion h)
                          (map g (zip_rows (map items its))))).
  { intros ordered mode Ha Hm.
    destruct (parallel_run_returns h ordered g mode its kwargs Ha Hm)
      as (n & cls & _ & _ & Hrun).
    rewrite Hrun. reflexivity. }
  assert (Hseq : sequential_accepts h kwargs = true ->
             (py_list h (_sequential (returns g) its kwargs)).2
             = Ok (map g (zip_rows (map items its)))).
  { intros Ha. rewrite (sequential_run_returns h g its kwargs x rest Ha Hlen).
    reflexivity. }
  destruct v; simpl in Hacc;
    try (apply Hseq; exact Hacc);
    first [ apply (Hpar true); done | apply (Hpar false); done ].
Qed.

Lemma arrival_order_perm {X} v h (l : list X) : arrival_order v h l ≡ₚ l.
Proof.
  unfold arrival_order. destruct (unordered v); [| done].
  apply completion_order_perm.
Qed.


(** *** Every way the setup of [_parallel] can end *)

(** Either it raises before a pool exists, or the pool exists and has the
    work when the bar refuses its arguments, or the bar is open over the
    pool's stream. *)
Lemma parallel_body_cases h (ordered : bool) f mode its kwargs :
  let mt := if ordered then Imap else Uimap in
  let rows := zip_rows (map items its) in
  (exists e, parallel_body h ordered f mode its kwargs = ([], Raise e))
  \/ (exists n e,
        parallel_body h ordered f mode its kwargs
        = ([PoolNew (kind_of mode) n; Submit mt (length rows)], Raise e))
  \/ (exists n cls total,
        parallel_body h ordered f mode its kwargs
        = ([PoolNew (kind_of mode) n; Submit mt (length rows);
            BarOpen cls total (display_options kwargs)],
           Ok (pool_stream h mt f rows))).
Proof.
  intros mt rows. unfold parallel_body, pop.
  destruct (determine_num_cpus h _) as [v | e]; [| left; eauto].
  rewrite bind_lift_ok.
  destruct (mode_ok mode); [| left; eauto].
  unfold py_assert. rewrite bind_ret_l.
  destruct (pool_workers v) as [n | e]; [| left; eauto].
  rewrite bind_lift_ok. right.
  fold (display_options kwargs). fold mt. fold rows.
  unfold call_progress.
  rewrite bool_decide_eq_false_2 by apply total_not_in_display.
  destruct (match _ !! "tqdm" with Some v0 => v0 | None => VTqdm "tqdm" end)
    as [| b | z | x | str | cls]; try (left; exists n; eexists; reflexivity).
  destruct (tqdm_init h (display_options kwargs)) as [[] | e].
  - right. exists n, cls. eexists. reflexivity.
  - left. exists n, e. reflexivity.
Qed.

Lemma drain_trace pooled (rest : list (result B)) :
  (exists vs, drain pooled rest
              = (BarClose :: (if pooled then [PoolClear] else []), Ok vs))
  \/ (exists e, drain pooled rest = ([BarClose], Raise e)).
Proof.
  induction rest as [| [v | e] rest IH]; simpl.
  - left. eauto.
  - rewrite bind_then_ret.
    destruct IH as [[vs Hvs] | [e He]]; [left | right];
      rewrite ?Hvs, ?He; simpl; eauto.
  - right. eauto.
Qed.

Lemma pull_suspended h k pooled (rest : list (result B)) tr vs pooled' rest' :
  pull (A:=A) k h (Suspended pooled rest) = (tr, vs, Suspended pooled' rest') ->
  tr = [] /\ pooled' = pooled.
Proof.
  revert rest tr vs. induction k as [| k IH]; intros rest tr vs; simpl.
  - intros [= <- _ <- _]. done.
  - destruct rest as [| [v | e] rest]; simpl; try discriminate.
    destruct (pull k h (Suspended pooled rest)) as [[tr1 vs1] g1] eqn:Hp.
    intros [= <- _ ->]. apply IH in Hp as [-> ->]. done.
Qed.

(** ** C7 *)

(** The release of the pool, on every path: a parallel map that is run to
    exhaustion ends with [pool.clear()], once, after the pool was created;
    when it ends with an exception nothing clears the pool; and when the
    consumer drops the generator while it is suspended at its [yield], the
    pool that was created is never cleared. *)
Theorem pool_cleared_on_exhaustion_only h (ordered : bool) f mode its kwargs :
  let g := _parallel ordered f mode its kwargs in
  (forall tr vs,
      py_list h g = (tr, Ok vs) ->
      exists tr0,
        tr = tr0 ++ [PoolClear]
        /\ existsb is_pool_new tr0 = true
        /\ existsb is_pool_clear tr0 = false)
  /\ (forall tr e,
        py_list h g = (tr, Raise e) -> existsb is_pool_clear tr = false)
  /\ (forall k tr vs pooled rest,
        pull k h g = (tr, vs, Suspended pooled rest) ->
        pool_leaked (abandon_after k h g).1 = true).
Proof.
  intros g. subst g. rewrite py_list_parallel.
  pose proof (parallel_body_cases h ordered f mode its kwargs) as Hcases.
  simpl in Hcases.
  destruct Hcases as [[e He] | [(n & e & He) | (n & cls & total & Hb)]].
  - rewrite He. repeat split.
    + intros tr vs [=].
    + intros tr e' [= <- _]. reflexivity.
    + intros [| k] tr vs pooled rest; simpl; [discriminate |].
      unfold _parallel, gen_next, start. rewrite He. simpl. discriminate.
  - rewrite He. repeat split.
    + intros tr vs [=].
    + intros tr e' [= <- _]. reflexivity.
    + intros [| k] tr vs pooled rest; simpl; [discriminate |].
      unfold _parallel, gen_next, start. rewrite He. simpl. discriminate.
  - rewrite Hb. set (stream := pool_stream _ _ _ _). repeat split.
    + intros tr vs. unfold bind.
      destruct (drain_trace true stream) as [[vs' ->] | [e ->]];
        [| discriminate].
      intros [= <- _].
      eexists [PoolNew _ _; Submit _ _; BarOpen _ _ _; BarClose].
      repeat split.
    + intros tr e. unfold bind.
      destruct (drain_trace true stream) as [[vs' ->] | [e' ->]];
        [discriminate |].
      intros [= <- _]. reflexivity.
    + intros [| k] tr vs pooled rest; simpl; [discriminate |].
      unfold abandon_after. simpl.
      unfold _parallel, gen_next, start. rewrite Hb. simpl.
      fold stream. destruct stream as [| [v | e] stream']; simpl;
        try discriminate.
      destruct (pull k h (Suspended true stream')) as [[tr1 vs1] g1] eqn:Hp.
      intros [= <- <- ->].
      apply pull_suspended in Hp as [-> ->]. reflexivity.
Qed.

(** ** C8 *)

Lemma mode_not_ok mode :
  mode <> "parallel" -> mode <> "threading" -> mode_ok mode = false.
Proof.
  intros Hp Ht. unfold mode_ok.
  apply String.eqb_neq in Hp, Ht. rewrite Hp, Ht. apply andb_false_r.
Qed.

(** C8: with a mode that is neither ["parallel"] nor ["threading"], the
    first [next] raises, whatever the function is, before any pool is
    created and before anything is submitted: the trace is empty.  The
    exception is the failed assertion, unless resolving a float
    [num_cpus] had raised first. *)
Theorem unknown_mode_fails_before_pool h (ordered : bool) mode its kwargs :
  mode <> "parallel" ->
  mode <> "threading" ->
  exists e,
    (e = AssertionError
     \/ determine_num_cpus h (option_of "num_cpus" kwargs) = Raise e)
    /\ forall f,
        gen_next h (_parallel ordered f mode its kwargs)
        = ([], Raised e, Finished)
        /\ py_list h (_parallel ordered f mode its kwargs) = ([], Raise e).
Proof.
  intros Hp Ht. pose proof (mode_not_ok mode Hp Ht) as Hmode.
  assert (Hbody : exists e,
             (e = AssertionError
              \/ determine_num_cpus h (option_of "num_cpus" kwargs) = Raise e)
             /\ forall f, parallel_body h ordered f mode its kwargs
                          = ([], Raise e)).
  { unfold parallel_body, pop.
    change (match kwargs !! "num_cpus" with Some v0 => v0 | None => VNone end)
      with (option_of "num_cpus" kwargs).
    destruct (determine_num_cpus h (option_of "num_cpus" kwargs)) as [v | e].
    - exists AssertionError. split; [by left |]. intros f.
      rewrite bind_lift_ok, Hmode. reflexivity.
    - exists e. split; [by right |]. intros f. reflexivity. }
  destruct Hbody as (e & He & Hbody). exists e. split; [exact He |].
  intros f. split.
  - unfold _parallel, gen_next, start. rewrite Hbody. reflexivity.
  - rewrite py_list_parallel, Hbody. reflexivity.
Qed.

(** ** C5: the bound given to the bar *)

Lemma bar_totals_parallel h (ordered : bool) f mode its kwargs :
  engine_accepts h kwargs = true ->
  mode_ok mode = true ->
  bar_totals (py_list h (_parallel ordered f mode its kwargs)).1
  = [py_or (option_of "total" kwargs) (inferred_length (sized_lengths its))].
Proof.
  intros Hacc Hmode.
  destruct (parallel_body_accepted h ordered f mode its kwargs Hacc Hmode)
    as (n & cls & _ & _ & Hbody).
  rewrite py_list_parallel, Hbody. unfold bind.
  destruct (drain_trace true
              (pool_stream h (if ordered then Imap else Uimap) f
                 (zip_rows (map items its)))) as [[vs ->] | [e ->]];
    reflexivity.
Qed.

(** A non-zero explicit total is the bound, whatever the inputs are. *)
Lemma explicit_total_is_bound h (ordered : bool) f mode its kwargs (T : Z) :
  engine_accepts h kwargs = true ->
  mode_ok mode = true ->
  kwargs !! "total" = Some (VInt T) ->
  T <> 0%Z ->
  bar_totals (py_list h (_parallel ordered f mode its kwargs)).1 = [VInt T].
Proof.
  intros Hacc Hmode Hlook HT.
  rewrite bar_totals_parallel by done.
  rewrite option_of_lookup, Hlook. unfold py_or. simpl.
  destruct (Z.eqb_spec T 0); [contradiction | reflexivity].
Qed.

(** Without [total] the bound is the least length among the sized inputs,
    or [None] when no input is sized. *)
Lemma omitted_total_is_inferred h (ordered : bool) f mode its kwargs :
  engine_accepts h kwargs = true ->
  mode_ok mode = true ->
  kwargs !! "total" = None ->
  bar_totals (py_list h (_parallel ordered f mode its kwargs)).1
  = [inferred_length (sized_lengths its)].
Proof.
  intros Hacc Hmode Hlook.
  rewrite bar_totals_parallel by done.
  rewrite option_of_lookup, Hlook. reflexivity.
Qed.

(** [total=0] is falsy: the bound is inferred as if it were omitted. *)
Lemma zero_total_is_inferred h (ordered : bool) f mode its kwargs :
  engine_accepts h kwargs = true ->
  mode_ok mode = true ->
  kwargs !! "total" = Some (VInt 0) ->
  bar_totals (py_list h (_parallel ordered f mode its kwargs)).1
  = [inferred_length (sized_lengths its)].
Proof.
  intros Hacc Hmode Hlook.
  rewrite bar_totals_parallel by done.
  rewrite option_of_lookup, Hlook. reflexivity.
Qed.

(** ** C9 *)

(** C9, as the code has it: [_sequential] too takes its total from the
    sized inputs only, and runs with unsized inputs among them; it raises
    [ValueError] only when no input at all is sized, where [_parallel]
    gives the bar [None] and goes on. *)
Theorem total_from_sized_inputs_only h f g its kwargs :
  (forall x rest,
      sized_lengths its = x :: rest ->
      sequential_accepts h kwargs = true ->
      s_map h (returns g) its kwargs
      = ([BarOpen "tqdm" (VInt (min_list x rest)) kwargs; BarClose],
         Ok (map g (zip_rows (map items its)))))
  /\ (sized_lengths its = [] ->
      gen_next h (s_imap f its kwargs) = ([], Raised ValueError, Finished))
  /\ (forall x rest,
        sized_lengths its = x :: rest ->
        engine_accepts h kwargs = true ->
        kwargs !! "total" = None ->
        bar_totals (p_map h f its kwargs).1 = [VInt (min_list x rest)])
  /\ (sized_lengths its = [] ->
      engine_accepts h kwargs = true ->
      kwargs !! "total" = None ->
      bar_totals (p_map h (returns g) its kwargs).1 = [VNone]
      /\ (p_map h (returns g) its kwargs).2
         = Ok (map g (zip_rows (map items its)))).
Proof.
  split; [| split; [| split]].
  - intros x rest Hlen Hacc. apply sequential_run_returns; done.
  - intros Hlen. unfold s_imap, _sequential, gen_next, start, sequential_body.
    rewrite Hlen. reflexivity.
  - intros x rest Hlen Hacc Htotal. unfold p_map, p_imap.
    rewrite omitted_total_is_inferred by done. rewrite Hlen. reflexivity.
  - intros Hlen Hacc Htotal. unfold p_map, p_imap. split.
    + rewrite omitted_total_is_inferred by done. rewrite Hlen. reflexivity.
    + destruct (parallel_run_returns h true g "parallel" its kwargs)
        as (n & cls & _ & _ & Hrun); [done | done |].
      rewrite Hrun. reflexivity.
Qed.

(** ** C10 *)

Lemma sequential_setup_raises h f its kwargs e :
  sequential_body h f its kwargs = ([], Raise e) ->
  gen_next h (s_imap f its kwargs) = ([], Raised e, Finished).
Proof.
  intros Hb. unfold s_imap, _sequential, gen_next, start. rewrite Hb.
  reflexivity.
Qed.

Lemma sequential_body_total h f its kwargs :
  "total" ∈ dom kwargs ->
  exists e, sequential_body h f its kwargs = ([], Raise e).
Proof.
  intros Hin. unfold sequential_body.
  destruct (py_min (sized_lengths its)) as [len | e]; [| eauto].
  rewrite bind_lift_ok. unfold call_progress.
  rewrite bool_decide_eq_true_2 by done. eauto.
Qed.

Lemma sequential_body_unknown h f its kwargs key :
  key ∈ dom kwargs ->
  key ∉ tqdm_names ->
  bar_disabled h kwargs = false ->
  exists e, sequential_body h f its kwargs = ([], Raise e).
Proof.
  intros Hin Hnot Hdis. unfold sequential_body.
  destruct (py_min (sized_lengths its)) as [len | e]; [| eauto].
  rewrite bind_lift_ok. unfold call_progress.
  destruct (bool_decide ("total" ∈ dom kwargs)); [eauto |].
  unfold tqdm_init. rewrite Hdis.
  destruct (bool_decide ("iterable" ∈ dom kwargs)); [eauto |].
  destruct (bool_decide ("self" ∈ dom kwargs)); [eauto |].
  rewrite (bool_decide_eq_false_2 (dom kwargs ⊆ tqdm_names))
    by (intros Hsub; apply Hnot, Hsub, Hin).
  destruct (bool_decide ("nested" ∈ dom kwargs)); eauto.
Qed.

(** C10, as the code has it: [_sequential] pops nothing from the keyword
    bag.  A [total] always collides with the one it passes itself; a
    [num_cpus] or [tqdm] reaches the bar as an unknown keyword and is
    refused, unless the bar is disabled, which returns before looking at
    it.  When the setup does not raise, the bag went to [tqdm] as it
    came, with the inferred total: no option was interpreted. *)
Theorem sequential_options_not_honoured h f its kwargs :
  ("total" ∈ dom kwargs ->
   exists e, gen_next h (s_imap f its kwargs) = ([], Raised e, Finished))
  /\ ("num_cpus" ∈ dom kwargs \/ "tqdm" ∈ dom kwargs ->
      bar_disabled h kwargs = false ->
      exists e, gen_next h (s_imap f its kwargs) = ([], Raised e, Finished))
  /\ (forall tr stream,
        sequential_body h f its kwargs = (tr, Ok stream) ->
        exists len,
          py_min (sized_lengths its) = Ok len
          /\ tr = [BarOpen "tqdm" (VInt len) kwargs]
          /\ stream = map f (zip_rows (map items its))).
Proof.
  repeat split.
  - intros Hin.
    destruct (sequential_body_total h f its kwargs Hin) as [e He].
    exists e. by apply sequential_setup_raises.
  - intros Hin Hdis.
    assert (exists e, sequential_body h f its kwargs = ([], Raise e))
      as [e He].
    { destruct Hin as [Hin | Hin];
        eapply sequential_body_unknown; try exact Hin; try exact Hdis;
        apply (bool_decide_eq_false_1 _); vm_compute; reflexivity. }
    exists e. by apply sequential_setup_raises.
  - intros tr stream. unfold sequential_body.
    destruct (py_min (sized_lengths its)) as [len | e]; [| discriminate].
    rewrite bind_lift_ok. unfold call_progress.
    destruct (bool_decide ("total" ∈ dom kwargs)); [discriminate |].
    destruct (tqdm_init h kwargs) as [[] | e]; [| discriminate].
    intros [= <- <-]. eauto.
Qed.

End Facts.

(** ** C6: the worker count *)

Lemma round_half_even_nearest m e :
  (0 <= m)%Z -> is_nearest m e (round_half_even m e).
Proof.
  intros Hm. unfold is_nearest, round_half_even.
  destruct (Z.leb_spec 0 e) as [He | He].
  - rewrite (Z.max_l 0 (- e)) by lia. rewrite (Z.max_r 0 e) by lia.
    change (2 ^ 0)%Z with 1%Z. rewrite Z.mul_1_r, Z.sub_diag. simpl. lia.
  - rewrite (Z.max_r 0 (- e)) by lia. rewrite (Z.max_l 0 e) by lia.
    change (2 ^ 0)%Z with 1%Z. rewrite Z.mul_1_r.
    assert (Hd : (0 < 2 ^ (- e))%Z) by (apply Z.pow_pos_nonneg; lia).
    set (d := (2 ^ (- e))%Z) in *.
    pose proof (Z.div_mod m d ltac:(lia)) as Hdm.
    pose proof (Z.mod_pos_bound m d Hd) as Hr.
    set (q := (m / d)%Z) in *. set (r := (m mod d)%Z) in *.
    destruct (Z.compare_spec (2 * r) d) as [Hc | Hc | Hc];
      [destruct (Z.even q) | | ]; nia.
Qed.

(** On a tie the even neighbour is taken. *)
Lemma round_half_even_ties m e :
  (0 <= m)%Z -> (e < 0)%Z ->
  (2 * Z.abs (round_half_even m e * 2 ^ (- e) - m) = 2 ^ (- e))%Z ->
  Z.even (round_half_even m e) = true.
Proof.
  intros Hm He. unfold round_half_even.
  destruct (Z.leb_spec 0 e) as [He' | _]; [lia |].
  assert (Hd : (0 < 2 ^ (- e))%Z) by (apply Z.pow_pos_nonneg; lia).
  set (d := (2 ^ (- e))%Z) in *.
  pose proof (Z.div_mod m d ltac:(lia)) as Hdm.
  pose proof (Z.mod_pos_bound m d Hd) as Hr.
  set (q := (m / d)%Z) in *. set (r := (m mod d)%Z) in *.
  destruct (Z.compare_spec (2 * r) d) as [Hc | Hc | Hc].
  - destruct (Z.even q) eqn:Hq; [done |]. intros _.
    rewrite Z.even_add, Hq. reflexivity.
  - intros H. nia.
  - intros H. nia.
Qed.

Lemma is_nearest_opp m e n : is_nearest m e n -> is_nearest (- m) e (- n).
Proof.
  unfold is_nearest. intros H.
  replace (- n * 2 ^ Z.max 0 (- e) - - m * 2 ^ Z.max 0 e)%Z
    with (- (n * 2 ^ Z.max 0 (- e) - m * 2 ^ Z.max 0 e))%Z by ring.
  rewrite Z.abs_opp. exact H.
Qed.

Lemma py_round_nearest s m e :
  exists n,
    py_round (S754_finite s m e) = Ok n
    /\ is_nearest (cond_Zopp s (Zpos m)) e n.
Proof.
  eexists. split; [reflexivity |].
  destruct s; simpl.
  - change (Z.neg m) with (- Z.pos m)%Z.
    apply is_nearest_opp, round_half_even_nearest. lia.
  - apply round_half_even_nearest. lia.
Qed.

(** C6, as the code has it: an integer [num_cpus] is handed on as it is,
    whatever the CPU count; an absent one (or [None]) becomes the CPU count;
    a float [x] becomes the integer nearest to the float product of [x] and
    the CPU count, which is 0 when that product is a zero.  Nothing raises
    the result to 1: the pool constructor is given what was computed. *)
Theorem worker_count_resolution h :
  (forall n, determine_num_cpus h (VInt n) = Ok (VInt n))
  /\ determine_num_cpus h VNone = Ok (VInt (cpu_count h))
  /\ (forall kwargs,
        kwargs !! "num_cpus" = None ->
        option_of "num_cpus" kwargs = VNone)
  /\ (forall x c s m e,
        float_of_int (cpu_count h) = Ok c ->
        SFmul prec emax x c = S754_finite s m e ->
        exists n,
          determine_num_cpus h (VFloat x) = Ok (VInt n)
          /\ is_nearest (cond_Zopp s (Zpos m)) e n)
  /\ (forall x c s,
        float_of_int (cpu_count h) = Ok c ->
        SFmul prec emax x c = S754_zero s ->
        determine_num_cpus h (VFloat x) = Ok (VInt 0)).
Proof.
  split; [| split; [| split; [| split]]].
  - reflexivity.
  - reflexivity.
  - intros kwargs Hlook. rewrite option_of_lookup, Hlook. reflexivity.
  - intros x c s m e Hc Hmul. simpl. rewrite Hc, Hmul.
    destruct (py_round_nearest s m e) as (n & -> & Hn). eauto.
  - intros x c s Hc Hmul. simpl. rewrite Hc, Hmul. reflexivity.
Qed.

(** The worker count that reaches the pool constructor. *)
Lemma resolved_workers_int h kwargs n :
  kwargs !! "num_cpus" = Some (VInt n) ->
  (1 <= n)%Z ->
  resolved_workers h kwargs = Ok n.
Proof.
  intros Hlook Hn. unfold resolved_workers.
  rewrite option_of_lookup, Hlook. simpl.
  destruct (Z.leb_spec 1 n); [reflexivity | lia].
Qed.

Lemma resolved_workers_default h kwargs :
  kwargs !! "num_cpus" = None ->
  (1 <= cpu_count h)%Z ->
  resolved_workers h kwargs = Ok (cpu_count h).
Proof.
  intros Hlook Hn. unfold resolved_workers.
  rewrite option_of_lookup, Hlook. simpl.
  destruct (Z.leb_spec 1 (cpu_count h)); [reflexivity | lia].
Qed.

(** Half of eight CPUs is four workers; two workers are two workers on any
    host. *)
Example half_of_eight_cpus :
  resolved_workers host8 half_the_cpus = Ok 4%Z
  /\ resolved_workers host8 two_workers = Ok 2%Z
  /\ resolved_workers host4 two_workers = Ok 2%Z.
Proof. vm_compute. repeat split. Qed.

(** ** Facades *)

(** Each list facade drains a generator: its own iterator facade for
    [p_map], [p_umap] and [s_map], but the process-pool iterators for
    [t_map] and [t_umap]. *)
Lemma list_facades_drain {A B} h (f : callable A B) its kwargs :
  p_map h f its kwargs = py_list h (p_imap f its kwargs)
  /\ p_umap h f its kwargs = py_list h (p_uimap f its kwargs)
  /\ s_map h f its kwargs = py_list h (s_imap f its kwargs)
  /\ t_map h f its kwargs = py_list h (p_imap f its kwargs)
  /\ t_umap h f its kwargs = py_list h (p_uimap f its kwargs).
Proof. repeat split. Qed.

(** C4: on the items 1, 2 with no options, [t_map] creates a process pool
    where [t_imap] creates a thread pool, and so does [t_umap] where
    [t_uimap] creates a thread pool. *)
Theorem t_map_runs_on_the_process_pool :
  pools_created (t_map host8 (returns row_sum) [Sized [1; 2]%Z] no_options).1
  = [ProcessPool]
  /\ pools_created
       (py_list host8 (t_imap (returns row_sum) [Sized [1; 2]%Z] no_options)).1
     = [ThreadPool]
  /\ pools_created (t_umap host8 (returns row_sum) [Sized [1; 2]%Z] no_options).1
     = [ProcessPool]
  /\ pools_created
       (py_list host8 (t_uimap (returns row_sum) [Sized [1; 2]%Z] no_options)).1
     = [ThreadPool].
Proof. vm_compute. repeat split. Qed.

(** C5: with [total=0] over three items the bar is given the bound 3, not
    0; with [total=7] it is given 7. *)
Theorem total_zero_is_ignored :
  bar_totals (p_map host8 (returns row_sum) [Sized [1; 2; 3]%Z] total_zero).1
  = [VInt 3]
  /\ bar_totals (p_map host8 (returns row_sum) [Sized [1; 2; 3]%Z] total_seven).1
     = [VInt 7].
Proof. vm_compute. repeat split. Qed.

(** ** Concrete runs *)

Lemma p_map_is_sequential_application_witness :
  [Sized [1; 2; 3]%Z; Unsized [10; 20]%Z] <> []
  /\ engine_accepts host8 two_workers_described = true
  /\ (p_map host8 (returns row_sum) [Sized [1; 2; 3]%Z; Unsized [10; 20]%Z]
        two_workers_described).2
     = Ok [11; 22]%Z.
Proof.
  split; [discriminate |]. split; [vm_compute; reflexivity |].
  apply (p_map_is_sequential_application host8 row_sum
           [Sized [1; 2; 3]%Z; Unsized [10; 20]%Z] two_workers_described).
  - discriminate.
  - vm_compute. reflexivity.
Defined.

Lemma p_umap_permutes_p_map_witness :
  [Sized [1; 2; 3; 4; 5]%Z] <> []
  /\ engine_accepts host8 no_options = true
  /\ exists unordered ordered,
      (p_umap host8 (returns row_sum) [Sized [1; 2; 3; 4; 5]%Z] no_options).2
      = Ok unordered
      /\ (p_map host8 (returns row_sum) [Sized [1; 2; 3; 4; 5]%Z] no_options).2
         = Ok ordered
      /\ unordered ≡ₚ ordered.
Proof.
  split; [discriminate |]. split; [vm_compute; reflexivity |].
  destruct (p_umap_permutes_p_map host8 row_sum [Sized [1; 2; 3; 4; 5]%Z]
              no_options)
    as (unordered & ordered & Hu & Ho & Hperm & _).
  - discriminate.
  - vm_compute. reflexivity.
  - exists unordered, ordered. repeat split; assumption.
Defined.


(** The claim C6 fails at [num_cpus=0.0625] on four CPUs: the product is
    0.25, which rounds to 0 workers, and the pool constructor refuses. *)
Lemma fraction_resolves_to_zero_workers :
  positive_float sixteenth = true
  /\ determine_num_cpus host4 (VFloat sixteenth) = Ok (VInt 0)
  /\ resolved_workers host4 sixteenth_of_the_cpus = Raise ValueError
  /\ ~ (forall h x n,
          (1 <= cpu_count h)%Z ->
          positive_float x = true ->
          determine_num_cpus h (VFloat x) = Ok (VInt n) ->
          (1 <= n)%Z).
Proof.
  split; [reflexivity |]. split; [vm_compute; reflexivity |].
  split; [vm_compute; reflexivity |].
  intros Hclaim.
  specialize (Hclaim host4 sixteenth 0%Z).
  assert (1 <= 0)%Z; [| lia].
  apply Hclaim; [simpl; lia | reflexivity | vm_compute; reflexivity].
Qed.

Lemma worker_count_resolution_witness :
  float_of_int (cpu_count host8) = Ok (S754_finite false 4503599627370496 (-49))
  /\ SFmul prec emax half (S754_finite false 4503599627370496 (-49))
     = S754_finite false 4503599627370496 (-50)
  /\ exists n,
      determine_num_cpus host8 (VFloat half) = Ok (VInt n)
      /\ is_nearest (Zpos 4503599627370496) (-50) n.
Proof.
  split; [vm_compute; reflexivity |]. split; [vm_compute; reflexivity |].
  destruct (worker_count_resolution host8) as (_ & _ & _ & Hfloat & _).
  apply (Hfloat half (S754_finite false 4503599627370496 (-49)) false
           4503599627370496%positive (-50)%Z).
  - vm_compute. reflexivity.
  - vm_compute. reflexivity.
Defined.

(** C7: the pool is not released on every exit.  [pool.clear()] is the
    last statement of [_parallel] and nothing guards it: when the function
    raises on the third of five items, and when the consumer takes two of a
    hundred items and drops the generator, a pool is created and never
    cleared. *)
Lemma pool_not_cleared_on_error_or_abandon :
  (p_map host8 fails_on_three [Sized [1; 2; 3; 4; 5]%Z] no_options).2
  = Raise (UserError 0)
  /\ pool_leaked
       (p_map host8 fails_on_three [Sized [1; 2; 3; 4; 5]%Z] no_options).1
     = true
  /\ (abandon_after 2 host8
        (p_imap (returns row_sum) [Sized hundred] no_options)).2
     = [0; 1]%Z
  /\ pool_leaked
       (abandon_after 2 host8
          (p_imap (returns row_sum) [Sized hundred] no_options)).1
     = true.
Proof. vm_compute. repeat split. Qed.

Lemma pool_cleared_on_exhaustion_only_witness :
  py_list host8 (_parallel true (returns row_sum) "parallel"
                   [Sized [1; 2; 3]%Z] no_options)
  = ([PoolNew ProcessPool 8; Submit Imap 3; BarOpen "tqdm" (VInt 3) ∅;
      BarClose; PoolClear], Ok [1; 2; 3]%Z)
  /\ exists tr0,
      [PoolNew ProcessPool 8; Submit Imap 3; BarOpen "tqdm" (VInt 3) ∅;
       BarClose; PoolClear] = tr0 ++ [PoolClear]
      /\ existsb is_pool_new tr0 = true
      /\ existsb is_pool_clear tr0 = false.
Proof.
  split; [vm_compute; reflexivity |].
  destruct (pool_cleared_on_exhaustion_only host8 true (returns row_sum)
              "parallel" [Sized [1; 2; 3]%Z] no_options) as (Hok & _ & _).
  apply (Hok _ [1; 2; 3]%Z). vm_compute. reflexivity.
Defined.

Lemma unknown_mode_fails_before_pool_witness :
  "bogus" <> "parallel"
  /\ "bogus" <> "threading"
  /\ exists e,
      gen_next host8
        (_parallel true fails_on_three "bogus" [Sized [1; 2; 3]%Z] no_options)
      = ([], Raised e, Finished).
Proof.
  split; [discriminate |]. split; [discriminate |].
  destruct (unknown_mode_fails_before_pool (B:=Z) host8 true "bogus"
              [Sized [1; 2; 3]%Z] no_options) as (e & _ & He).
  - discriminate.
  - discriminate.
  - exists e. apply (He fails_on_three).
Defined.

(** The claim C9 fails on a list of three items zipped with a one-pass
    iterator over two: [_sequential] does not raise, it gives the bar the
    total 3 and yields the two results. *)
Lemma sequential_runs_with_an_unsized_input :
  gen_next host8
    (s_imap (returns row_sum) [Sized [1; 2; 3]%Z; Unsized [10; 20]%Z] no_options)
  = ([BarOpen "tqdm" (VInt 3) no_options], Yielded 11%Z,
     Suspended false [Ok 22%Z])
  /\ s_map host8 (returns row_sum) [Sized [1; 2; 3]%Z; Unsized [10; 20]%Z]
       no_options
     = ([BarOpen "tqdm" (VInt 3) no_options; BarClose], Ok [11; 22]%Z).
Proof. vm_compute. repeat split. Qed.

Lemma total_from_sized_inputs_only_witness :
  sized_lengths [Sized [1; 2; 3]%Z; Unsized [10; 20]%Z] = [3%Z]
  /\ sequential_accepts host8 no_options = true
  /\ s_map host8 (returns row_sum) [Sized [1; 2; 3]%Z; Unsized [10; 20]%Z]
       no_options
     = ([BarOpen "tqdm" (VInt 3) no_options; BarClose], Ok [11; 22]%Z).
Proof.
  split; [reflexivity |]. split; [vm_compute; reflexivity |].
  destruct (total_from_sized_inputs_only host8 (returns row_sum) row_sum
              [Sized [1; 2; 3]%Z; Unsized [10; 20]%Z] no_options)
    as (Hseq & _).
  apply (Hseq 3%Z []).
  - reflexivity.
  - vm_compute. reflexivity.
Defined.

(** The claim C10 fails for [num_cpus=2, disable=True]: the disabled bar
    accepts the bag, nothing raises, and the two items are mapped in the
    calling thread. *)
Lemma sequential_ignores_num_cpus_when_disabled :
  two_workers_disabled !! "num_cpus" = Some (VInt 2)
  /\ s_map host8 (returns row_sum) [Sized [1; 2]%Z] two_workers_disabled
     = ([BarOpen "tqdm" (VInt 2) two_workers_disabled; BarClose],
        Ok [1; 2]%Z).
Proof. vm_compute. repeat split. Qed.

Lemma sequential_options_not_honoured_witness :
  "num_cpus" ∈ dom two_workers
  /\ bar_disabled host8 two_workers = false
  /\ exists e,
      gen_next host8 (s_imap (returns row_sum) [Sized [1; 2]%Z] two_workers)
      = ([], Raised e, Finished).
Proof.
  assert (Hin : "num_cpus" ∈ dom two_workers).
  { apply elem_of_dom. exists (VInt 2). reflexivity. }
  split; [exact Hin |]. split; [reflexivity |].
  destruct (sequential_options_not_honoured host8 (returns row_sum)
              [Sized [1; 2]%Z] two_workers) as (_ & Hunknown & _).
  apply Hunknown; [by left | reflexivity].
Defined.

(** * Further facts about the engine *)

Section Streams.
Context {A B : Type}.
Implicit Types (h : host) (f : callable A B) (g : list A -> B).
Implicit Types (kwargs : gmap string pyval) (its : list (iterable A)).

(** ** The loop: results, failures and early exits *)





(** ** Pools *)

Lemma sequential_body_cases h f its kwargs :
  (exists e, sequential_body h f its kwargs = ([], Raise e))
  \/ (exists len,
        sequential_body h f its kwargs
        = ([BarOpen "tqdm" (VInt len) kwargs],
           Ok (map f (zip_rows (map items its))))).
Proof.
  unfold sequential_body.
  destruct (py_min (sized_lengths its)) as [len | e]; [| left; eauto].
  rewrite bind_lift_ok. unfold call_progress.
  destruct (bool_decide ("total" ∈ dom kwargs)); [left; eauto |].
  destruct (tqdm_init h kwargs) as [[] | e]; [right | left]; eauto.
Qed.

Lemma abandon_suspended_unpooled h k (rest : list (result B)) :
  Forall (fun ev => is_pool_event ev = false)
    (abandon_after (A:=A) k h (Suspended false rest)).1.
Proof.
  revert rest. induction k as [| k IH]; intros rest.
  - repeat constructor.
  - destruct rest as [| [v | e] rest].
    + repeat constructor.
    + specialize (IH rest). unfold abandon_after in *. simpl.
      destruct (pull k h (Suspended false rest)) as [[tr vs] g'].
      destruct (gen_close g') as [tr' g'']. exact IH.
    + repeat constructor.
Qed.

(** X3: the sequential map never touches a pool.  Whatever the function,
    the inputs and the options are, and however the run ends (exhausted,
    failed, or dropped after [k] items), no pool is constructed and none is
    cleared. *)
Theorem sequential_never_touches_a_pool h f its kwargs k :
  Forall (fun ev => is_pool_event ev = false) (s_map h f its kwargs).1
  /\ Forall (fun ev => is_pool_event ev = false)
       (abandon_after k h (s_imap f its kwargs)).1.
Proof.
  split.
  - unfold s_map, s_imap. rewrite py_list_sequential.
    destruct (sequential_body_cases h f its kwargs) as [[e ->] | [len ->]].
    + constructor.
    + unfold bind.
      destruct (drain_trace false (map f (zip_rows (map items its))))
        as [[vs ->] | [e ->]]; repeat constructor.
  - destruct k as [| k]; [repeat constructor |].
    unfold abandon_after, s_imap, _sequential. simpl. unfold start.
    destruct (sequential_body_cases h f its kwargs) as [[e ->] | [len ->]].
    + constructor.
    + simpl.
      destruct (map f (zip_rows (map items its))) as [| [v | e] rest].
      * repeat constructor.
      * pose proof (abandon_suspended_unpooled h k rest) as Hrest.
        unfold abandon_after in Hrest. simpl.
        destruct (pull k h (Suspended false rest)) as [[tr vs] g'].
        destruct (gen_close g') as [tr' g'']. simpl in *.
        constructor; [reflexivity | exact Hrest].
      * repeat constructor.
Qed.

Lemma pool_new_parallel h (ordered : bool) f mode its kwargs :
  engine_accepts h kwargs = true ->
  mode_ok mode = true ->
  exists n,
    resolved_workers h kwargs = Ok n
    /\ List.filter is_pool_new
         (py_list h (_parallel ordered f mode its kwargs)).1
       = [PoolNew (kind_of mode) n].
Proof.
  intros Hacc Hmode.
  destruct (parallel_body_accepted h ordered f mode its kwargs Hacc Hmode)
    as (n & cls & Hn & _ & Hbody).
  exists n. split; [exact Hn |].
  rewrite py_list_parallel, Hbody. unfold bind.
  destruct (drain_trace true
              (pool_stream h (if ordered then Imap else Uimap) f
                 (zip_rows (map items its)))) as [[vs ->] | [e ->]];
    reflexivity.
Qed.

Lemma pool_new_sequential h f its kwargs :
  List.filter is_pool_new (py_list h (_sequential f its kwargs)).1 = [].
Proof.
  rewrite py_list_sequential.
  destruct (sequential_body_cases h f its kwargs) as [[e ->] | [len ->]];
    [reflexivity |].
  unfold bind.
  destruct (drain_trace false (map f (zip_rows (map items its))))
    as [[vs ->] | [e ->]]; reflexivity.
Qed.

(** X4: which pool each public name builds.  With accepted options, the
    four process-mode names and also [t_map] and [t_umap] construct one
    [ProcessPool], [t_imap] and [t_uimap] construct one [ThreadPool], each
    with exactly the resolved worker count, whatever the function does; the
    sequential names construct none. *)
Theorem each_variant_builds_its_pool v h f its kwargs :
  variant_accepts v h kwargs = true ->
  match v with
  | S_imap | S_map =>
      List.filter is_pool_new (run_variant v h f its kwargs).1 = []
  | T_imap | T_uimap =>
      exists n,
        resolved_workers h kwargs = Ok n
        /\ List.filter is_pool_new (run_variant v h f its kwargs).1
           = [PoolNew ThreadPool n]
  | _ =>
      exists n,
        resolved_workers h kwargs = Ok n
        /\ List.filter is_pool_new (run_variant v h f its kwargs).1
           = [PoolNew ProcessPool n]
  end.
Proof.
  intros Hacc.
  destruct v; simpl in Hacc; simpl run_variant;
    try apply pool_new_sequential;
    first
      [ apply (pool_new_parallel h true f "parallel" its kwargs Hacc eq_refl)
      | apply (pool_new_parallel h false f "parallel" its kwargs Hacc eq_refl)
      | apply (pool_new_parallel h true f "threading" its kwargs Hacc eq_refl)
      | apply (pool_new_parallel h false f "threading" its kwargs Hacc
                 eq_refl) ].
Qed.

(** ** Where the work runs does not change the results *)

Lemma drain_result_pooled (rest : list (result B)) :
  (drain true rest).2 = (drain false rest).2.
Proof.
  induction rest as [| [v | e] rest IH]; simpl; [reflexivity | | reflexivity].
  rewrite !bind_then_ret. simpl. rewrite IH. reflexivity.
Qed.

Lemma bind_result {X Y} (m m' : M X) (k k' : X -> M Y) :
  m.2 = m'.2 ->
  (forall x, (k x).2 = (k' x).2) ->
  (bind m k).2 = (bind m' k').2.
Proof.
  destruct m as [tr [x | e]], m' as [tr' [x' | e']]; simpl;
    intros [= <-] Hk; try reflexivity.
  specialize (Hk x). destruct (k x), (k' x). exact Hk.
Qed.

(** X5: the ordered maps agree on their results.  With options that each
    accepts and a sized input present, [s_map], [p_map] and the drained
    [t_imap] return the same list, or raise the same exception, for every
    function, failing or not. *)
Theorem ordered_maps_agree h f its kw_s kw_p kw_t :
  sequential_accepts h kw_s = true ->
  engine_accepts h kw_p = true ->
  engine_accepts h kw_t = true ->
  sized_lengths its <> [] ->
  (s_map h f its kw_s).2 = (p_map h f its kw_p).2
  /\ (py_list h (t_imap f its kw_t)).2 = (p_map h f its kw_p).2.
Proof.
  intros Hs Hp Ht Hsized.
  destruct (sized_lengths its) as [| x rest] eqn:Hlen; [done |].
  destruct (parallel_body_accepted h true f "parallel" its kw_p Hp eq_refl)
    as (n & cls & _ & _ & Hbp).
  destruct (parallel_body_accepted h true f "threading" its kw_t Ht eq_refl)
    as (n' & cls' & _ & _ & Hbt).
  unfold s_map, s_imap, p_map, p_imap, t_imap.
  rewrite py_list_sequential, !py_list_parallel, Hbp, Hbt.
  rewrite (sequential_body_accepted h f its kw_s x rest Hs Hlen).
  split.
  - apply bind_result; [reflexivity |]. intros s. symmetry.
    apply drain_result_pooled.
  - apply bind_result; reflexivity.
Qed.

(** ** The keyword options *)

Lemma parallel_body_insert_total h (ordered : bool) f mode its kwargs v :
  (parallel_body h ordered f mode its (<["total" := v]> kwargs)).2
  = (parallel_body h ordered f mode its kwargs).2.
Proof.
  unfold parallel_body, pop.
  rewrite lookup_insert_ne by done.
  rewrite (delete_insert_ne kwargs "num_cpus" "total") by done.
  rewrite delete_insert_eq.
  destruct (determine_num_cpus h _) as [w | e]; [| reflexivity].
  rewrite !bind_lift_ok.
  destruct (mode_ok mode); [| reflexivity].
  unfold py_assert. rewrite !bind_ret_l.
  destruct (pool_workers w) as [n | e]; [| reflexivity].
  rewrite !bind_lift_ok. unfold call_progress.
  destruct (bool_decide _); [reflexivity |].
  destruct (match _ !! "tqdm" with Some v0 => v0 | None => VTqdm "tqdm" end);
    try reflexivity.
  destruct (tqdm_init h _) as [[] | e]; reflexivity.
Qed.

(** X6: [total] only feeds the progress bar.  Passing [total=T], for any
    integer [T], never changes what a parallel map returns or raises: the
    outcome is that of the same call without [total], so the results are
    neither capped nor padded by it. *)
Theorem total_never_changes_the_results h (ordered : bool) f mode its
    kwargs (T : Z) :
  (py_list h (_parallel ordered f mode its (<["total" := VInt T]> kwargs))).2
  = (py_list h (_parallel ordered f mode its (delete "total" kwargs))).2.
Proof.
  rewrite !py_list_parallel.
  apply bind_result; [| reflexivity].
  rewrite <- (insert_delete_eq kwargs "total" (VInt T)).
  apply parallel_body_insert_total.
Qed.

(** X7: how [_parallel] routes the keyword options.  In an accepted run one
    bar is opened, of the class given under [tqdm] (or [tqdm] itself when
    there is none); the options it receives contain none of [num_cpus],
    [total] and [tqdm], and every other keyword exactly as the caller
    passed it. *)
Theorem engine_options_stay_in_the_engine h (ordered : bool) f mode its
    kwargs :
  engine_accepts h kwargs = true ->
  mode_ok mode = true ->
  exists cls options,
    bars_opened (py_list h (_parallel ordered f mode its kwargs)).1
    = [(cls, options)]
    /\ default (VTqdm "tqdm") (kwargs !! "tqdm") = VTqdm cls
    /\ options !! "num_cpus" = None
    /\ options !! "total" = None
    /\ options !! "tqdm" = None
    /\ forall key,
         key <> "num_cpus" -> key <> "total" -> key <> "tqdm" ->
         options !! key = kwargs !! key.
Proof.
  intros Hacc Hmode.
  destruct (parallel_body_accepted h ordered f mode its kwargs Hacc Hmode)
    as (n & cls & _ & Hcls & Hbody).
  exists cls, (display_options kwargs). split; [| split; [exact Hcls |]].
  - rewrite py_list_parallel, Hbody. unfold bind.
    destruct (drain_trace true
                (pool_stream h (if ordered then Imap else Uimap) f
                   (zip_rows (map items its)))) as [[vs ->] | [e ->]];
      reflexivity.
  - unfold display_options. repeat split.
    + rewrite !lookup_delete_ne by done. apply lookup_delete_eq.
    + rewrite lookup_delete_ne by done. apply lookup_delete_eq.
    + apply lookup_delete_eq.
    + intros key H1 H2 H3. rewrite !lookup_delete_ne by done. reflexivity.
Qed.

(** X8: a worker count that the pool refuses ends the run before a pool
    exists.  With a valid mode, if resolving [num_cpus] or the pool
    constructor raises, the first [next] raises that exception with an
    empty trace: nothing was constructed and nothing submitted.  An integer
    below 1 is refused with [ValueError]. *)
Theorem refused_worker_count_fails_before_the_pool h (ordered : bool) f mode
    its kwargs e :
  mode_ok mode = true ->
  resolved_workers h kwargs = Raise e ->
  gen_next h (_parallel ordered f mode its kwargs) = ([], Raised e, Finished)
  /\ py_list h (_parallel ordered f mode its kwargs) = ([], Raise e)
  /\ forall n,
       kwargs !! "num_cpus" = Some (VInt n) -> (n < 1)%Z -> e = ValueError.
Proof.
  intros Hmode Hres.
  assert (Hbody : parallel_body h ordered f mode its kwargs = ([], Raise e)).
  { unfold resolved_workers in Hres. unfold parallel_body, pop.
    change (match kwargs !! "num_cpus" with Some v0 => v0 | None => VNone end)
      with (option_of "num_cpus" kwargs).
    destruct (determine_num_cpus h (option_of "num_cpus" kwargs)) as [w |].
    - rewrite bind_lift_ok, Hmode. unfold py_assert. rewrite bind_ret_l.
      rewrite Hres. reflexivity.
    - injection Hres as ->. reflexivity. }
  split; [| split].
  - unfold _parallel, gen_next, start. rewrite Hbody. reflexivity.
  - rewrite py_list_parallel, Hbody. reflexivity.
  - intros n Hlook Hn. unfold resolved_workers in Hres.
    rewrite option_of_lookup, Hlook in Hres. simpl in Hres.
    destruct (Z.leb_spec 1 n); [lia | congruence].
Qed.

(** X9: an infinite or NaN [num_cpus] is refused at once.  Whatever the
    mode and the host, the first [next] raises [ValueError] or
    [OverflowError] from the rounding on line 40, with an empty trace. *)
Theorem nonfinite_fraction_is_refused h (ordered : bool) f mode its kwargs x :
  kwargs !! "num_cpus" = Some (VFloat x) ->
  nonfinite x = true ->
  exists e,
    (e = ValueError \/ e = OverflowError)
    /\ gen_next h (_parallel ordered f mode its kwargs)
       = ([], Raised e, Finished).
Proof.
  intros Hlook Hx.
  assert (Hdet : exists e, (e = ValueError \/ e = OverflowError)
                   /\ determine_num_cpus h (VFloat x) = Raise e).
  { simpl. unfold float_of_int.
    destruct (binary_normalize prec emax (cpu_count h) 0 false) as [s | s | | s m e'];
      destruct x as [sx | sx | | sx mx ex]; try discriminate; simpl; eauto. }
  destruct Hdet as (e & He & Hdet). exists e. split; [exact He |].
  unfold _parallel, gen_next, start, parallel_body, pop.
  rewrite Hlook, Hdet. reflexivity.
Qed.


(** ** How many results, and what the bar is told *)

Lemma zip_rows_length_le (inputs : list (list A)) xs :
  xs ∈ inputs -> length (zip_rows inputs) <= length xs.
Proof.
  induction inputs as [| ys inputs IH]; intros Hin;
    [by apply elem_of_nil in Hin |].
  destruct inputs as [| zs inputs].
  - apply list_elem_of_singleton in Hin as ->. simpl. rewrite length_map. lia.
  - change (zip_rows (ys :: zs :: inputs))
      with (zip_with cons ys (zip_rows (zs :: inputs))).
    rewrite length_zip_with. apply elem_of_cons in Hin as [-> | Hin]; [lia |].
    specialize (IH Hin). lia.
Qed.

Lemma zip_rows_length_attained (inputs : list (list A)) :
  inputs <> [] ->
  exists xs, xs ∈ inputs /\ length (zip_rows inputs) = length xs.
Proof.
  induction inputs as [| ys inputs IH]; intros Hne; [done |].
  destruct inputs as [| zs inputs].
  - exists ys. split; [left |]. simpl. apply length_map.
  - change (zip_rows (ys :: zs :: inputs))
      with (zip_with cons ys (zip_rows (zs :: inputs))).
    rewrite length_zip_with.
    destruct IH as (xs & Hin & Hlen); [done |].
    destruct (Nat.min_spec (length ys) (length (zip_rows (zs :: inputs))))
      as [[_ ->] | [_ ->]].
    + exists ys. split; [left | reflexivity].
    + exists xs. split; [by right | exact Hlen].
Qed.

Lemma foldl_min_le (a : Z) (l : list Z) :
  (foldl Z.min a l <= a)%Z /\ forall y, y ∈ l -> (foldl Z.min a l <= y)%Z.
Proof.
  revert a. induction l as [| z l IH]; intros a; simpl.
  - split; [lia |]. intros y Hy. by apply elem_of_nil in Hy.
  - destruct (IH (Z.min a z)) as [Ha Hl]. split; [lia |].
    intros y Hy. apply elem_of_cons in Hy as [-> | Hy]; [lia | by apply Hl].
Qed.

Lemma min_list_le x rest y : y ∈ x :: rest -> (min_list x rest <= y)%Z.
Proof.
  intros Hy. destruct (foldl_min_le x rest) as [Hx Hrest].
  apply elem_of_cons in Hy as [-> | Hy]; [exact Hx | by apply Hrest].
Qed.

Lemma min_list_in x rest : min_list x rest ∈ x :: rest.
Proof.
  unfold min_list. revert x. induction rest as [| z rest IH]; intros x; simpl.
  - left.
  - specialize (IH (Z.min x z)).
    apply elem_of_cons in IH as [-> | IH].
    + destruct (Z.min_spec x z) as [[_ ->] | [_ ->]]; [left | right; left].
    + right. by right.
Qed.

Lemma sized_lengths_elem its z :
  z ∈ sized_lengths its ->
  exists it, it ∈ its /\ z = Z.of_nat (length (items it)).
Proof.
  induction its as [| [xs | xs] its IH]; simpl; intros Hz.
  - by apply elem_of_nil in Hz.
  - apply elem_of_cons in Hz as [-> | Hz].
    + exists (Sized xs). split; [left | reflexivity].
    + destruct (IH Hz) as (it & Hin & ->). exists it. split; [by right | done].
  - destruct (IH Hz) as (it & Hin & ->). exists it. split; [by right | done].
Qed.

Lemma sized_lengths_all its it :
  forallb is_sized its = true ->
  it ∈ its ->
  Z.of_nat (length (items it)) ∈ sized_lengths its.
Proof.
  induction its as [| [xs | xs] its IH]; simpl; intros Hall Hin.
  - by apply elem_of_nil in Hin.
  - apply elem_of_cons in Hin as [-> | Hin]; [left | right; by apply IH].
  - discriminate.
Qed.

Lemma rows_le_input its it :
  it ∈ its -> length (zip_rows (map items its)) <= length (items it).
Proof.
  intros Hin. apply zip_rows_length_le.
  apply (list_elem_of_fmap_2 items). exact Hin.
Qed.

Lemma length_arrival_order v h g (rows : list (list A)) :
  length (arrival_order v h (map g rows)) = length rows.
Proof. rewrite arrival_order_perm. apply length_map. Qed.

Lemma pool_stream_nil h mt f : pool_stream h mt f [] = [].
Proof. destruct mt; simpl; [reflexivity |]. by destruct (completion h). Qed.

(** X11: an empty input empties the map.  If any one of the inputs has no
    items, an accepted parallel map still creates its pool, submits no task,
    opens and closes the bar, clears the pool, and returns the empty list
    without ever calling the function; the sequential map returns the empty
    list too. *)
Theorem empty_input_yields_nothing h (ordered : bool) f mode its kwargs it :
  engine_accepts h kwargs = true ->
  mode_ok mode = true ->
  it ∈ its ->
  items it = [] ->
  (exists n cls total,
      resolved_workers h kwargs = Ok n
      /\ py_list h (_parallel ordered f mode its kwargs)
         = ([PoolNew (kind_of mode) n;
             Submit (if ordered then Imap else Uimap) 0;
             BarOpen cls total (display_options kwargs);
             BarClose; PoolClear], Ok []))
  /\ forall kw x rest,
       sequential_accepts h kw = true ->
       sized_lengths its = x :: rest ->
       (s_map h f its kw).2 = Ok [].
Proof.
  intros Hacc Hmode Hin Hempty.
  assert (Hrows : zip_rows (map items its) = []).
  { apply length_zero_iff_nil. pose proof (rows_le_input its it Hin) as Hle.
    rewrite Hempty in Hle. simpl in Hle. lia. }
  destruct (parallel_body_accepted h ordered f mode its kwargs Hacc Hmode)
    as (n & cls & Hn & _ & Hbody).
  split.
  - exists n, cls. eexists. split; [exact Hn |].
    rewrite py_list_parallel, Hbody, Hrows, pool_stream_nil. reflexivity.
  - intros kw x rest Hs Hlen. unfold s_map, s_imap.
    rewrite py_list_sequential,
      (sequential_body_accepted h f its kw x rest Hs Hlen), Hrows.
    reflexivity.
Qed.

(** X12: the number of results with any number of inputs.  With accepted
    options and a function that returns, every variant yields exactly as
    many results as its shortest input has items, sized or not: no more
    than any input has, and as many as one of them has. *)
Theorem results_count_is_the_shortest_input v h g its kwargs x rest :
  variant_accepts v h kwargs = true ->
  sized_lengths its = x :: rest ->
  exists out,
    (run_variant v h (returns g) its kwargs).2 = Ok out
    /\ (forall it, it ∈ its -> length out <= length (items it))
    /\ (exists it, it ∈ its /\ length out = length (items it)).
Proof.
  intros Hacc Hlen. eexists. split; [by eapply run_variant_returns |].
  rewrite (length_arrival_order v h g). split.
  - apply rows_le_input.
  - destruct (zip_rows_length_attained (map items its)) as (xs & Hin & Hxs).
    { destruct its; [discriminate | done]. }
    apply list_elem_of_fmap in Hin as (it & -> & Hin). eauto.
Qed.

Lemma bar_totals_variant v h g its kwargs x rest :
  variant_accepts v h kwargs = true ->
  sized_lengths its = x :: rest ->
  kwargs !! "total" = None ->
  bar_totals (run_variant v h (returns g) its kwargs).1
  = [VInt (min_list x rest)].
Proof.
  intros Hacc Hlen Htotal.
  assert (Hpar : forall (ordered : bool) mode,
             engine_accepts h kwargs = true -> mode_ok mode = true ->
             bar_totals
               (py_list h (_parallel ordered (returns g) mode its kwargs)).1
             = [VInt (min_list x rest)]).
  { intros ordered mode Ha Hm.
    rewrite omitted_total_is_inferred by done. rewrite Hlen. reflexivity. }
  assert (Hseq : sequential_accepts h kwargs = true ->
             bar_totals (py_list h (_sequential (returns g) its kwargs)).1
             = [VInt (min_list x rest)]).
  { intros Ha. rewrite (sequential_run_returns h g its kwargs x rest Ha Hlen).
    reflexivity. }
  destruct v; simpl in Hacc;
    try (apply Hseq; exact Hacc);
    first [ apply (Hpar true); done | apply (Hpar false); done ].
Qed.

(** X13: the inferred bound never undercounts.  With [total] omitted and a
    function that returns, the bound given to the bar (the least length
    among the sized inputs) is at least the number of results that are
    yielded; it is exactly that number when every input is sized, and can
    exceed it only because an unsized input ran out first. *)
Theorem inferred_bound_covers_the_items v h g its kwargs x rest :
  variant_accepts v h kwargs = true ->
  sized_lengths its = x :: rest ->
  kwargs !! "total" = None ->
  exists out,
    bar_totals (run_variant v h (returns g) its kwargs).1
    = [VInt (min_list x rest)]
    /\ (run_variant v h (returns g) its kwargs).2 = Ok out
    /\ (Z.of_nat (length out) <= min_list x rest)%Z
    /\ (forallb is_sized its = true ->
        Z.of_nat (length out) = min_list x rest).
Proof.
  intros Hacc Hlen Htotal. eexists.
  split; [by apply bar_totals_variant |].
  split; [by eapply run_variant_returns |].
  rewrite (length_arrival_order v h g).
  assert (Hle : (Z.of_nat (length (zip_rows (map items its)))
                 <= min_list x rest)%Z).
  { pose proof (min_list_in x rest) as Hin. rewrite <- Hlen in Hin.
    apply sized_lengths_elem in Hin as (it & Hin & ->).
    pose proof (rows_le_input its it Hin). lia. }
  split; [exact Hle |]. intros Hall.
  destruct (zip_rows_length_attained (map items its)) as (xs & Hin & Hxs).
  { destruct its; [discriminate | done]. }
  apply list_elem_of_fmap in Hin as (it & -> & Hin).
  pose proof (sized_lengths_all its it Hall Hin) as Hmem.
  rewrite Hlen in Hmem. apply min_list_le in Hmem. lia.
Qed.

(** X14: [total=0] and [total=None] count as omitted.  When [total] is
    passed to a parallel map as an integer or as [None], the bar is given
    that value if it is a non-zero integer, and otherwise the bound inferred
    from the sized inputs, exactly as if nothing had been passed. *)
Theorem falsy_total_counts_as_omitted h (ordered : bool) f mode its kwargs v :
  engine_accepts h kwargs = true ->
  mode_ok mode = true ->
  kwargs !! "total" = Some v ->
  (v = VNone \/ exists T, v = VInt T) ->
  bar_totals (py_list h (_parallel ordered f mode its kwargs)).1
  = [if truthy v then v else inferred_length (sized_lengths its)]
  /\ (truthy v = false ->
      bar_totals (py_list h (_parallel ordered f mode its kwargs)).1
      = bar_totals
          (py_list h (_parallel ordered f mode its (delete "total" kwargs))).1).
Proof.
  intros Hacc Hmode Hlook _.
  assert (Hacc' : engine_accepts h (delete "total" kwargs) = true).
  { assert (Hdisplay : display_options (delete "total" kwargs)
                       = display_options kwargs).
    { unfold display_options.
      rewrite (delete_delete kwargs "num_cpus" "total"), delete_delete_eq.
      reflexivity. }
    unfold engine_accepts, resolved_workers in *.
    rewrite Hdisplay, !option_of_lookup in *.
    rewrite !lookup_delete_ne by done. exact Hacc. }
  rewrite !bar_totals_parallel by done.
  rewrite !option_of_lookup, Hlook, lookup_delete_eq. unfold py_or. simpl.
  split; [reflexivity |]. intros ->. reflexivity.
Qed.

End Streams.

(** ** Rounding the fraction *)

(** X15: a fraction that lands exactly halfway goes to the even count.
    When the float product of [num_cpus] and the CPU count is finite with a
    fractional part, the resolved worker count is even whenever the product
    lies exactly halfway between two integers: Python's [round] does not
    round halves up. *)
Theorem halfway_fraction_resolves_to_even h x c s m e :
  float_of_int (cpu_count h) = Ok c ->
  SFmul prec emax x c = S754_finite s m e ->
  (e < 0)%Z ->
  exists n,
    determine_num_cpus h (VFloat x) = Ok (VInt n)
    /\ ((2 * Z.abs (n * 2 ^ (- e) - cond_Zopp s (Zpos m)) = 2 ^ (- e))%Z ->
        Z.even n = true).
Proof.
  intros Hc Hmul He. eexists. split.
  - simpl. rewrite Hc, Hmul. reflexivity.
  - destruct s; simpl.
    + intros Hhalf. rewrite Z.even_opp.
      apply round_half_even_ties; [lia | exact He |].
      change (Z.neg m) with (- Z.pos m)%Z in Hhalf.
      rewrite <- Z.abs_opp in Hhalf.
      replace (- (- round_half_even (Z.pos m) e * 2 ^ (- e) - - Z.pos m))%Z
        with (round_half_even (Z.pos m) e * 2 ^ (- e) - Z.pos m)%Z
        in Hhalf by ring.
      exact Hhalf.
    + apply round_half_even_ties; [lia | exact He].
Qed.

(** ** Concrete runs of the further facts *)


Lemma each_variant_builds_its_pool_witness :
  variant_accepts T_map host8 two_workers = true
  /\ exists n,
      resolved_workers host8 two_workers = Ok n
      /\ List.filter is_pool_new
           (run_variant T_map host8 fails_on_three [Sized [1; 2; 3]%Z]
              two_workers).1
         = [PoolNew ProcessPool n].
Proof.
  split; [vm_compute; reflexivity |].
  apply (each_variant_builds_its_pool T_map host8 fails_on_three
           [Sized [1; 2; 3]%Z] two_workers).
  vm_compute. reflexivity.
Defined.

Lemma ordered_maps_agree_witness :
  sequential_accepts host8 no_options = true
  /\ engine_accepts host8 two_workers_described = true
  /\ engine_accepts host8 no_options = true
  /\ sized_lengths [Sized [1; 2; 3; 4; 5]%Z] <> []
  /\ (s_map host8 fails_on_three [Sized [1; 2; 3; 4; 5]%Z] no_options).2
     = (p_map host8 fails_on_three [Sized [1; 2; 3; 4; 5]%Z]
          two_workers_described).2
  /\ (py_list host8
        (t_imap fails_on_three [Sized [1; 2; 3; 4; 5]%Z] no_options)).2
     = (p_map host8 fails_on_three [Sized [1; 2; 3; 4; 5]%Z]
          two_workers_described).2.
Proof.
  split; [vm_compute; reflexivity |]. split; [vm_compute; reflexivity |].
  split; [vm_compute; reflexivity |]. split; [discriminate |].
  apply (ordered_maps_agree host8 fails_on_three [Sized [1; 2; 3; 4; 5]%Z]
           no_options two_workers_described no_options).
  - vm_compute. reflexivity.
  - vm_compute. reflexivity.
  - vm_compute. reflexivity.
  - discriminate.
Defined.

Lemma engine_options_stay_in_the_engine_witness :
  engine_accepts host8 own_bar = true
  /\ exists cls options,
      bars_opened
        (py_list host8
           (_parallel false (returns row_sum) "threading" [Sized [1; 2]%Z]
              own_bar)).1
      = [(cls, options)]
      /\ default (VTqdm "tqdm") (own_bar !! "tqdm") = VTqdm cls
      /\ options !! "num_cpus" = None
      /\ options !! "total" = None
      /\ options !! "tqdm" = None
      /\ options !! "desc" = own_bar !! "desc".
Proof.
  split; [vm_compute; reflexivity |].
  destruct (engine_options_stay_in_the_engine host8 false (returns row_sum)
              "threading" [Sized [1; 2]%Z] own_bar)
    as (cls & options & Hbar & Hcls & Hn & Ht & Hq & Hrest).
  - vm_compute. reflexivity.
  - reflexivity.
  - exists cls, options. repeat split; try assumption.
    apply Hrest; discriminate.
Defined.

Lemma refused_worker_count_fails_before_the_pool_witness :
  mode_ok "threading" = true
  /\ resolved_workers host8 no_workers = Raise ValueError
  /\ gen_next host8
       (_parallel true (returns row_sum) "threading" [Sized [1; 2]%Z]
          no_workers)
     = ([], Raised ValueError, Finished).
Proof.
  split; [reflexivity |]. split; [vm_compute; reflexivity |].
  apply (refused_worker_count_fails_before_the_pool host8 true
           (returns row_sum) "threading" [Sized [1; 2]%Z] no_workers
           ValueError).
  - reflexivity.
  - vm_compute. reflexivity.
Defined.

Lemma nonfinite_fraction_is_refused_witness :
  nan_workers !! "num_cpus" = Some (VFloat S754_nan)
  /\ nonfinite S754_nan = true
  /\ exists e,
      (e = ValueError \/ e = OverflowError)
      /\ gen_next host8
           (_parallel true (returns row_sum) "parallel" [Sized [1; 2]%Z]
              nan_workers)
         = ([], Raised e, Finished).
Proof.
  split; [reflexivity |]. split; [reflexivity |].
  apply (nonfinite_fraction_is_refused host8 true (returns row_sum)
           "parallel" [Sized [1; 2]%Z] nan_workers S754_nan).
  - reflexivity.
  - reflexivity.
Defined.


Lemma empty_input_yields_nothing_witness :
  engine_accepts host8 no_options = true
  /\ mode_ok "parallel" = true
  /\ (Sized [] ∈ [Sized [1; 2; 3]%Z; Sized []])
  /\ exists n cls total,
      resolved_workers host8 no_options = Ok n
      /\ py_list host8
           (_parallel false fails_on_three "parallel"
              [Sized [1; 2; 3]%Z; Sized []] no_options)
         = ([PoolNew (kind_of "parallel") n; Submit Uimap 0;
             BarOpen cls total (display_options no_options);
             BarClose; PoolClear], Ok []).
Proof.
  assert (Hin : Sized [] ∈ [Sized [1; 2; 3]%Z; Sized []]) by (right; left).
  split; [vm_compute; reflexivity |]. split; [reflexivity |].
  split; [exact Hin |].
  destruct (empty_input_yields_nothing host8 false fails_on_three "parallel"
              [Sized [1; 2; 3]%Z; Sized []] no_options (Sized []))
    as [Hrun _].
  - vm_compute. reflexivity.
  - reflexivity.
  - exact Hin.
  - reflexivity.
  - exact Hrun.
Defined.

Lemma results_count_is_the_shortest_input_witness :
  variant_accepts P_umap host8 no_options = true
  /\ sized_lengths [Sized [1; 2; 3]%Z; Unsized [10; 20]%Z] = [3%Z]
  /\ exists out,
      (run_variant P_umap host8 (returns row_sum)
         [Sized [1; 2; 3]%Z; Unsized [10; 20]%Z] no_options).2 = Ok out
      /\ (exists it,
             it ∈ [Sized [1; 2; 3]%Z; Unsized [10; 20]%Z]
             /\ length out = length (items it)).
Proof.
  split; [vm_compute; reflexivity |]. split; [reflexivity |].
  destruct (results_count_is_the_shortest_input P_umap host8 row_sum
              [Sized [1; 2; 3]%Z; Unsized [10; 20]%Z] no_options 3%Z [])
    as (out & Hrun & _ & Hmin).
  - vm_compute. reflexivity.
  - reflexivity.
  - exists out. split; assumption.
Defined.

Lemma inferred_bound_covers_the_items_witness :
  variant_accepts S_map host8 no_options = true
  /\ sized_lengths [Sized [1; 2; 3]%Z; Unsized [10; 20]%Z] = [3%Z]
  /\ no_options !! "total" = None
  /\ exists out,
      bar_totals
        (run_variant S_map host8 (returns row_sum)
           [Sized [1; 2; 3]%Z; Unsized [10; 20]%Z] no_options).1
      = [VInt (min_list 3 [])]
      /\ (run_variant S_map host8 (returns row_sum)
            [Sized [1; 2; 3]%Z; Unsized [10; 20]%Z] no_options).2 = Ok out
      /\ (Z.of_nat (length out) <= min_list 3 [])%Z.
Proof.
  split; [vm_compute; reflexivity |]. split; [reflexivity |].
  split; [reflexivity |].
  destruct (inferred_bound_covers_the_items S_map host8 row_sum
              [Sized [1; 2; 3]%Z; Unsized [10; 20]%Z] no_options 3%Z [])
    as (out & Hbar & Hrun & Hle & _).
  - vm_compute. reflexivity.
  - reflexivity.
  - reflexivity.
  - exists out. repeat split; assumption.
Defined.

Lemma falsy_total_counts_as_omitted_witness :
  engine_accepts host8 total_zero = true
  /\ mode_ok "parallel" = true
  /\ total_zero !! "total" = Some (VInt 0)
  /\ bar_totals
       (py_list host8
          (_parallel true (returns row_sum) "parallel" [Sized [1; 2; 3]%Z]
             total_zero)).1
     = [VInt 3].
Proof.
  split; [vm_compute; reflexivity |]. split; [reflexivity |].
  split; [reflexivity |].
  destruct (falsy_total_counts_as_omitted host8 true (returns row_sum)
              "parallel" [Sized [1; 2; 3]%Z] total_zero (VInt 0))
    as [Hbound _].
  - vm_compute. reflexivity.
  - reflexivity.
  - reflexivity.
  - right. exists 0%Z. reflexivity.
  - exact Hbound.
Defined.

Lemma halfway_fraction_resolves_to_even_witness :
  float_of_int (cpu_count host8)
  = Ok (S754_finite false 4503599627370496 (-49))
  /\ SFmul prec emax five_sixteenths (S754_finite false 4503599627370496 (-49))
     = S754_finite false 5629499534213120 (-51)
  /\ (-51 < 0)%Z
  /\ determine_num_cpus host8 (VFloat five_sixteenths) = Ok (VInt 2)
  /\ exists n,
      determine_num_cpus host8 (VFloat five_sixteenths) = Ok (VInt n)
      /\ ((2 * Z.abs (n * 2 ^ (- -51)
                      - cond_Zopp false (Zpos 5629499534213120))
           = 2 ^ (- -51))%Z ->
          Z.even n = true).
Proof.
  split; [vm_compute; reflexivity |]. split; [vm_compute; reflexivity |].
  split; [lia |]. split; [vm_compute; reflexivity |].
  apply (halfway_fraction_resolves_to_even host8 five_sixteenths
           (S754_finite false 4503599627370496 (-49)) false
           5629499534213120%positive (-51)%Z).
  - vm_compute. reflexivity.
  - vm_compute. reflexivity.
  - lia.
Defined.
